(** * hospital-api: the FastAPI health service of [main.py]

    A shallow embedding of the request handlers of [main.py] and the
    properties its specification states about them.

    The module keeps four globals ([users], [health_metrics], [doctors],
    [appointments]); every handler reads and writes them in place and
    signals failure by raising.  Handlers are therefore embedded in a
    state-and-exception monad over a record of these four globals.

    The libraries the module calls ([bcrypt], [jwt], the process
    environment) are the fields of the class [Runtime]; the two facts the
    service relies on about them are the class [RuntimeLaws]. *)

From Stdlib Require Import ZArith List.
From stdpp Require Import base option list strings gmap.

Local Open Scope Z_scope.

(** ** Python values *)

(** A value of a decoded token payload, as far as the handlers look at it:
    they only ever compare the [sub] claim with a username. *)
Inductive pyval :=
| PyNone
| PyStr (s : string)
| PyInt (n : Z).

Global Instance pyval_eq_dec : EqDecision pyval.
Proof. solve_decision. Defined.

(** [d.get(k)] on a dict: the value, or Python's [None]. *)
Definition dict_get (d : gmap string pyval) (k : string) : pyval :=
  default PyNone (d !! k).

(** A [datetime] is naive (no UTC offset, a wall-clock reading) or aware
    (an instant).  Both are counted in microseconds. *)
Inductive datetime :=
| Naive (t : Z)
| Aware (t : Z).

(** ** Exceptions and outcomes *)

Inductive exn :=
| PyJWTError
| TypeError (msg : string)
| HTTPException (status_code : Z) (detail : string)
                (headers : list (string * string))
| ValueError.

Inductive outcome (A : Type) :=
| Return (a : A)
| Raise (e : exn).
Arguments Return {A} a.
Arguments Raise {A} e.

(** [a <= b] on datetimes: Python refuses to order a naive and an aware
    value. *)
Definition datetime_le (a b : datetime) : outcome bool :=
  match a, b with
  | Naive x, Naive y => Return (x <=? y)
  | Aware x, Aware y => Return (x <=? y)
  | _, _ => Raise (TypeError "can't compare offset-naive and offset-aware datetimes")
  end.

(** ** The runtime the module is loaded in *)

Class Runtime := {
  (** bcrypt; [None] is a raised [ValueError]: bcrypt refuses a password
      it finds too long (more than 72 bytes) *)
  hash : Type;
  salt : Type;
  hashpw : string -> salt -> option hash;
  checkpw : string -> hash -> option bool;
  (** jwt, algorithm HS256; [None] is a raised [PyJWTError].  The verdict
      is that of one call: a token that carries an expiry may verify at one
      request and no longer at a later one. *)
  token : Type;
  jwt_encode : gmap string pyval -> string -> token;
  jwt_decode : token -> string -> option (gmap string pyval);
  (** os.getenv *)
  getenv : string -> option string
}.

Class RuntimeLaws `{Runtime} : Prop := {
  checkpw_hashpw : forall (p : string) (s : salt) (h : hash),
    hashpw p s = Some h -> checkpw p h = Some true;
  jwt_decode_encode : forall (u k : string),
    jwt_decode (jwt_encode {["sub" := PyStr u]} k) k
    = Some {["sub" := PyStr u]}
}.

(** ** Pydantic models *)

Module User.
Record t := { id : Z; username : string; role : string }.
End User.

Module UserCreate.
Record t := { username : string; password : string; role : string }.
End UserCreate.

Module HealthMetrics.
Record t := {
  sleep : Z;
  exercise : Z;
  waterIntake : Z;
  sex : option string
}.
End HealthMetrics.

Module Appointment.
Record t := {
  patient_id : Z;
  doctor_id : Z;
  date : datetime;
  reason : option string
}.
End Appointment.

Module SymptomCheck.
Record t := { symptoms : list string }.
End SymptomCheck.

(** ** Rows of the in-memory tables *)

(** An entry of [doctors]. *)
Record doctor := {
  doc_id : Z;
  name : string;
  specialty : string
}.

(** An entry of [appointments] (the dict [new_appointment]). *)
Record appointment_row := {
  patient_id : Z;
  doctor_id : Z;
  date : datetime;
  reason : option string;
  doctor_name : string;
  appt_specialty : string
}.

(** The seed of [doctors]. *)
Definition doctors_seed : list doctor :=
  [ {| doc_id := 1; name := "Dr. Alice Smith"; specialty := "Cardiology" |};
    {| doc_id := 2; name := "Dr. Bob Johnson"; specialty := "Pediatrics" |};
    {| doc_id := 3; name := "Dr. Carol Williams"; specialty := "Mental Health" |} ].

Definition SYMPTOM_CONDITIONS : gmap string (list string) :=
  list_to_map
    [ ("fever", ["Flu"; "COVID-19"; "Infection"]);
      ("cough", ["Flu"; "COVID-19"; "Cold"]);
      ("headache", ["Migraine"; "Tension headache"; "Sinusitis"]);
      ("sore throat", ["Cold"; "Flu"; "Strep throat"]);
      ("fatigue", ["Anemia"; "Depression"; "Chronic fatigue syndrome"]);
      ("stomach pain", ["bug, food posioning"]) ].

Section Service.
Context `{Runtime}.

(** An entry of [users] (the dict [new_user]). *)
Record user_row := {
  id : Z;
  username : string;
  role : string;
  password : hash
}.

(** The module's globals. *)
Record store := {
  users : list user_row;
  health_metrics : gmap Z HealthMetrics.t;
  doctors : list doctor;
  appointments : list appointment_row
}.

(** The globals when the module has just been loaded. *)
Definition init_store : store :=
  {| users := []; health_metrics := ∅;
     doctors := doctors_seed; appointments := [] |}.

Definition JWT_SECRET : string :=
  default "default_secret" (getenv "JWT_SECRET").

(** ** The handler monad *)

Definition M (A : Type) : Type := store -> outcome A * store.

Global Instance M_ret : MRet M := fun A a st => (Return a, st).
Global Instance M_bind : MBind M := fun A B f m st =>
  match m st with
  | (Return a, st') => f a st'
  | (Raise e, st') => (Raise e, st')
  end.

Definition raise {A} (e : exn) : M A := fun st => (Raise e, st).
Definition lift {A} (o : outcome A) : M A := fun st => (o, st).
Definition gets {A} (f : store -> A) : M A := fun st => (Return (f st), st).
Definition modify (f : store -> store) : M unit := fun st => (Return tt, f st).

(** [try: m  except jwt.PyJWTError: h] *)
Definition try_except_PyJWTError {A} (m h : M A) : M A := fun st =>
  match m st with
  | (Raise PyJWTError, st') => h st'
  | r => r
  end.

(** ** Writes to the globals *)

(** [users.append(u)] *)
Definition users_append (u : user_row) (st : store) : store :=
  {| users := users st ++ [u]; health_metrics := health_metrics st;
     doctors := doctors st; appointments := appointments st |}.

(** [health_metrics[k] = v] *)
Definition health_metrics_set (k : Z) (v : HealthMetrics.t) (st : store) : store :=
  {| users := users st; health_metrics := <[k := v]> (health_metrics st);
     doctors := doctors st; appointments := appointments st |}.

(** [appointments.append(a)] *)
Definition appointments_append (a : appointment_row) (st : store) : store :=
  {| users := users st; health_metrics := health_metrics st;
     doctors := doctors st; appointments := appointments st ++ [a] |}.

(** ** Utility functions for JWT and password hashing *)

Definition create_access_token (data : gmap string pyval) : token :=
  jwt_encode data JWT_SECRET.

Definition verify_password (plain_password : string) (hashed_password : hash)
  : outcome bool :=
  match checkpw plain_password hashed_password with
  | Some ok => Return ok
  | None => Raise ValueError
  end.

(** [bcrypt.gensalt()] draws a fresh salt; the draw is the argument [s]. *)
Definition hash_password (password : string) (s : salt) : outcome hash :=
  match hashpw password s with
  | Some hashed => Return hashed
  | None => Raise ValueError
  end.

(** [jwt.decode(token, JWT_SECRET, algorithms=["HS256"])] *)
Definition jwt_decode_token (tok : token) : M (gmap string pyval) :=
  match jwt_decode tok JWT_SECRET with
  | Some payload => mret payload
  | None => raise PyJWTError
  end.

(** ** Response bodies that are plain dicts in the source *)

Record token_response := {
  access_token : token;
  token_type : string
}.

Record appointment_response := {
  message : string;
  appointment : appointment_row
}.

Inductive symptom_response :=
| NoMatch (message : string)
| Matched (matched_conditions : list string).

(** ** 1. User management endpoints *)

Definition register_user (user : UserCreate.t) (s : salt) : M User.t :=
  us ← gets users;
  let user_id := Z.of_nat (length us) + 1 in
  hashed_password ← lift (hash_password (UserCreate.password user) s);
  let new_user :=
    {| id := user_id; username := UserCreate.username user;
       role := UserCreate.role user; password := hashed_password |} in
  _ ← modify (users_append new_user);
  mret {| User.id := id new_user; User.username := username new_user;
          User.role := role new_user |}.

Definition login_for_access_token (form_username form_password : string)
  : M token_response :=
  us ← gets users;
  let user := find (fun user => bool_decide (username user = form_username)) us in
  match user with
  | None =>
      raise (HTTPException 401 "Incorrect username or password"
               [("WWW-Authenticate", "Bearer")])
  | Some user =>
      verified ← lift (verify_password form_password (password user));
      if negb verified then
        raise (HTTPException 401 "Incorrect username or password"
                 [("WWW-Authenticate", "Bearer")])
      else
        let access_token := create_access_token {["sub" := PyStr (username user)]} in
        mret {| access_token := access_token; token_type := "bearer" |}
  end.

(** ** 2. Health dashboard endpoints *)

Definition default_metrics : HealthMetrics.t :=
  {| HealthMetrics.sleep := 0; HealthMetrics.exercise := 0;
     HealthMetrics.waterIntake := 0; HealthMetrics.sex := Some "f/m" |}.

Definition get_dashboard (tok : token) : M HealthMetrics.t :=
  try_except_PyJWTError
    (payload ← jwt_decode_token tok;
     let username_ := dict_get payload "sub" in
     us ← gets users;
     let user := find (fun user => bool_decide (PyStr (username user) = username_)) us in
     match user with
     | None => raise (HTTPException 404 "User not found" [])
     | Some user =>
         hm ← gets health_metrics;
         let user_metrics := default default_metrics (hm !! id user) in
         mret user_metrics
     end)
    (raise (HTTPException 403 "Could not validate credentials" [])).

Definition update_dashboard (health_data : HealthMetrics.t) (tok : token)
  : M HealthMetrics.t :=
  try_except_PyJWTError
    (payload ← jwt_decode_token tok;
     let username_ := dict_get payload "sub" in
     us ← gets users;
     let user := find (fun user => bool_decide (PyStr (username user) = username_)) us in
     match user with
     | None => raise (HTTPException 404 "User not found" [])
     | Some user =>
         _ ← modify (health_metrics_set (id user) health_data);
         mret health_data
     end)
    (raise (HTTPException 403 "Could not validate credentials" [])).

(** ** 3. Root endpoint *)

Definition read_root : M string := mret "Welcome to the Health API".

(** ** 4. Doctors and appointments *)

Definition get_doctors : M (list doctor) := gets doctors.

(** [now] is the reading of [datetime.now()] when the request is handled. *)
Definition create_appointment (appointment : Appointment.t) (tok : token) (now : Z)
  : M appointment_response :=
  try_except_PyJWTError
    (payload ← jwt_decode_token tok;
     let username_ := dict_get payload "sub" in
     us ← gets users;
     let user := find (fun user => bool_decide (PyStr (username user) = username_)) us in
     match user with
     | None => raise (HTTPException 404 "User not found" [])
     | Some user =>
         ds ← gets doctors;
         let doctor :=
           find (fun doc => bool_decide (doc_id doc = Appointment.doctor_id appointment)) ds in
         match doctor with
         | None => raise (HTTPException 404 "Doctor not found" [])
         | Some doctor =>
             past ← lift (datetime_le (Appointment.date appointment) (Naive now));
             if (past : bool) then
               raise (HTTPException 400 "Appointment date must be in the future." [])
             else
               let new_appointment :=
                 {| patient_id := id user;
                    doctor_id := Appointment.doctor_id appointment;
                    date := Appointment.date appointment;
                    reason := Appointment.reason appointment;
                    doctor_name := name doctor;
                    appt_specialty := specialty doctor |} in
               _ ← modify (appointments_append new_appointment);
               mret {| message := "Appointment scheduled successfully";
                       appointment := new_appointment |}
         end
     end)
    (raise (HTTPException 403 "Could not validate credentials" [])).

(** ** 5. Symptom checker *)

(** The loop over [symptom_check.symptoms] that fills [matched_conditions]. *)
Definition match_conditions (symptoms : list string) : gset string :=
  foldl (fun matched_conditions symptom =>
           match SYMPTOM_CONDITIONS !! symptom with
           | Some conds => matched_conditions ∪ list_to_set conds
           | None => matched_conditions
           end) ∅ symptoms.

(** [list(matched_conditions)] lists the set in an order Python does not
    specify; [elements] stands for one such listing, and the properties
    below rely on its members and on the absence of repetition only. *)
Definition check_symptoms (symptom_check : SymptomCheck.t) (tok : token)
  : M symptom_response :=
  try_except_PyJWTError
    (payload ← jwt_decode_token tok;
     let username_ := dict_get payload "sub" in
     us ← gets users;
     let user := find (fun user => bool_decide (PyStr (username user) = username_)) us in
     match user with
     | None => raise (HTTPException 404 "User  not found" [])
     | Some user =>
         let matched_conditions := match_conditions (SymptomCheck.symptoms symptom_check) in
         if bool_decide (matched_conditions = ∅) then
           mret (NoMatch "No matching conditions found for the provided symptoms.")
         else
           mret (Matched (elements matched_conditions))
     end)
    (raise (HTTPException 403 "Could not validate credentials" [])).

(** ** The service as a whole *)

(** One HTTP request, with the draws of the environment it consumes
    (the salt of [bcrypt.gensalt()], the reading of [datetime.now()]). *)
Inductive request :=
| POST_register (user : UserCreate.t) (s : salt)
| POST_token (form_username form_password : string)
| GET_dashboard (tok : token)
| POST_dashboard_update (health_data : HealthMetrics.t) (tok : token)
| GET_root
| GET_doctors
| POST_appointments (appointment : Appointment.t) (tok : token) (now : Z)
| POST_symptom_checker (symptom_check : SymptomCheck.t) (tok : token).

Inductive response :=
| UserBody (b : User.t)
| TokenBody (b : token_response)
| MetricsBody (b : HealthMetrics.t)
| MessageBody (b : string)
| DoctorsBody (b : list doctor)
| AppointmentBody (b : appointment_response)
| SymptomBody (b : symptom_response).

(** Routing. *)
Definition handle (r : request) : M response :=
  match r with
  | POST_register user s => b ← register_user user s; mret (UserBody b)
  | POST_token u p => b ← login_for_access_token u p; mret (TokenBody b)
  | GET_dashboard tok => b ← get_dashboard tok; mret (MetricsBody b)
  | POST_dashboard_update h tok => b ← update_dashboard h tok; mret (MetricsBody b)
  | GET_root => b ← read_root; mret (MessageBody b)
  | GET_doctors => b ← get_doctors; mret (DoctorsBody b)
  | POST_appointments a tok now => b ← create_appointment a tok now; mret (AppointmentBody b)
  | POST_symptom_checker sc tok => b ← check_symptoms sc tok; mret (SymptomBody b)
  end.

(** The globals after serving the requests [rs] one after the other. *)
Definition run (rs : list request) (st : store) : store :=
  foldl (fun st r => snd (handle r st)) st rs.

(** Registrations served one after the other, with their responses. *)
Fixpoint register_all (rs : list (UserCreate.t * salt)) (st : store)
  : list (outcome User.t) * store :=
  match rs with
  | [] => ([], st)
  | (user, s) :: rs' =>
      let '(o, st') := register_user user s st in
      let '(os, st'') := register_all rs' st' in
      (o :: os, st'')
  end.

(** The same appointment request with another [patient_id] in its body. *)
Definition with_patient_id (p : Z) (a : Appointment.t) : Appointment.t :=
  {| Appointment.patient_id := p;
     Appointment.doctor_id := Appointment.doctor_id a;
     Appointment.date := Appointment.date a;
     Appointment.reason := Appointment.reason a |}.

(** ** The Auth Gate of the specification

    The specification (section 4.3) describes the guard that the four
    protected handlers each spell out: verify the token, read [sub], scan
    the credential store, hand back the user.  [auth_gate] follows the
    specification's words; the lemmas [*_gate] below compare each handler
    of the source with it.  Step 1 of the contract (a request without a
    bearer token) is answered by the framework before a handler runs, so
    the gate starts from a token. *)

Inductive AuthError :=
| MissingToken
| InvalidToken
| UserNotFound.

Definition auth_gate (tok : token) (us : list user_row) : AuthError + user_row :=
  match jwt_decode tok JWT_SECRET with
  | None => inl InvalidToken
  | Some claims =>
      match find (fun u => bool_decide (PyStr (username u) = dict_get claims "sub")) us with
      | None => inl UserNotFound
      | Some u => inr u
      end
  end.

(** The bearer token of a request to a protected endpoint. *)
Definition bearer (r : request) : option token :=
  match r with
  | GET_dashboard tok
  | POST_dashboard_update _ tok
  | POST_appointments _ tok _
  | POST_symptom_checker _ tok => Some tok
  | POST_register _ _ | POST_token _ _ | GET_root | GET_doctors => None
  end.

(** [u] is the first row of [us] with the username [n]. *)
Definition first_named (n : string) (us : list user_row) (u : user_row) : Prop :=
  exists l1 l2, us = l1 ++ u :: l2 /\ username u = n /\
    forall v, v ∈ l1 -> username v <> n.

(** No request of [rs], served from [st] on, is a dashboard update made
    with a token that the gate resolves to the user id [i]. *)
Fixpoint no_update_by (i : Z) (rs : list request) (st : store) : Prop :=
  match rs with
  | [] => True
  | r :: rs' =>
      (forall h tok u, r = POST_dashboard_update h tok ->
         auth_gate tok (users st) = inr u -> id u <> i)
      /\ no_update_by i rs' (snd (handle r st))
  end.

(** The endpoints whose handler contains no write to a global. *)
Definition read_only (r : request) : bool :=
  match r with
  | POST_token _ _ | GET_dashboard _ | GET_root | GET_doctors
  | POST_symptom_checker _ _ => true
  | POST_register _ _ | POST_dashboard_update _ _ | POST_appointments _ _ _ => false
  end.

(** What the tables of a running service satisfy: user ids count the rows
    of [users] from 1; [doctors] is the seed; every key of [health_metrics]
    and every [patient_id] of [appointments] is the id of a row of [users];
    every appointment names a seeded doctor and has a naive date. *)
Definition store_ok (st : store) : Prop :=
  (forall (i : nat) u, users st !! i = Some u -> id u = Z.of_nat i + 1)
  /\ doctors st = doctors_seed
  /\ (forall k, is_Some (health_metrics st !! k) ->
        exists u, u ∈ users st /\ id u = k)
  /\ (forall a, a ∈ appointments st ->
        (exists u, u ∈ users st /\ id u = patient_id a)
        /\ (exists d, d ∈ doctors_seed /\ doc_id d = doctor_id a /\
                      name d = doctor_name a /\ specialty d = appt_specialty a)
        /\ (exists t, date a = Naive t)).

End Service.

(** ** A reference runtime

    Hashing and signing as ideal functionalities: a hash remembers the
    salt and the password it was made from, a token remembers its claims
    and the key it was signed with.  Passwords of more than 72 bytes are
    refused.  No variable [JWT_SECRET] is set. *)

Definition ideal_runtime : Runtime := {|
  hash := string * string;
  salt := string;
  hashpw p s := if (72 <? String.length p)%nat then None else Some (s, p);
  checkpw p h :=
    if (72 <? String.length p)%nat then None else Some (bool_decide (snd h = p));
  token := gmap string pyval * string;
  jwt_encode d k := (d, k);
  jwt_decode t k := if bool_decide (snd t = k) then Some (fst t) else None;
  getenv _ := None
|}.

Definition alice_patient : UserCreate.t :=
  {| UserCreate.username := "alice"; UserCreate.password := "pw123";
     UserCreate.role := "patient" |}.

Definition alice_doctor : UserCreate.t :=
  {| UserCreate.username := "alice"; UserCreate.password := "pw123";
     UserCreate.role := "doctor" |}.

Definition bob_doctor : UserCreate.t :=
  {| UserCreate.username := "bob"; UserCreate.password := "pw456";
     UserCreate.role := "doctor" |}.

(** The token [POST /token] hands to a user named [u] in [ideal_runtime]. *)
Definition ideal_token (u : string) : @token ideal_runtime :=
  ({["sub" := PyStr u]}, "default_secret").

(** A password of 73 bytes. *)
Definition long_password : string :=
  String.string_of_list_ascii (repeat (Ascii.ascii_of_nat 97) 73).

Definition carol_long : UserCreate.t :=
  {| UserCreate.username := "carol"; UserCreate.password := long_password;
     UserCreate.role := "patient" |}.

(** A token signed with another key. *)
Definition forged_token (u : string) : @token ideal_runtime :=
  ({["sub" := PyStr u]}, "guess").

(** The store after [alice_patient] registered on a fresh service. *)
Definition alice_store : @store ideal_runtime :=
  snd (@register_user ideal_runtime alice_patient "salt1" (@init_store ideal_runtime)).

(** Its only row. *)
Definition alice_row : @user_row ideal_runtime :=
  {| id := 1; username := "alice"; role := "patient";
     password := (("salt1", "pw123") : @hash ideal_runtime) |}.

Definition sample_metrics : HealthMetrics.t :=
  {| HealthMetrics.sleep := 7; HealthMetrics.exercise := 30;
     HealthMetrics.waterIntake := 2000; HealthMetrics.sex := None |}.

Definition sample_appointment (d : datetime) : Appointment.t :=
  {| Appointment.patient_id := 99; Appointment.doctor_id := 1;
     Appointment.date := d; Appointment.reason := Some "checkup" |}.

(** More sample data on [ideal_runtime]. *)

Definition bob_row : @user_row ideal_runtime :=
  {| id := 2; username := "bob"; role := "doctor";
     password := (("salt2", "pw456") : @hash ideal_runtime) |}.

(** Alice, then bob, register on a fresh service. *)
Definition two_users : list (@request ideal_runtime) :=
  [ @POST_register ideal_runtime alice_patient "salt1";
    @POST_register ideal_runtime bob_doctor "salt2" ].

(** The appointment bob books with doctor 1. *)
Definition bob_booking : appointment_row :=
  {| patient_id := 2; doctor_id := 1; date := Naive 2000;
     reason := Some "checkup"; doctor_name := "Dr. Alice Smith";
     appt_specialty := "Cardiology" |}.

(** After registering, alice updates her dashboard and bob books. *)
Definition busy_day : list (@request ideal_runtime) :=
  two_users ++
  [ @POST_dashboard_update ideal_runtime sample_metrics (ideal_token "alice");
    @POST_appointments ideal_runtime (sample_appointment (Naive 2000))
      (ideal_token "bob") 1000 ].

(** A second "alice" registers, as a doctor. *)
Definition alice_again : list (@request ideal_runtime) :=
  [ @POST_register ideal_runtime alice_doctor "salt2" ].

(** Requests that only read. *)
Definition reads : list (@request ideal_runtime) :=
  [ @GET_dashboard ideal_runtime (forged_token "alice");
    @POST_token ideal_runtime "alice" "wrong";
    @GET_doctors ideal_runtime;
    @POST_symptom_checker ideal_runtime
      {| SymptomCheck.symptoms := ["fever"] |} (ideal_token "alice") ].

(** A token signed with the right key that carries no claim. *)
Definition claimless_token : @token ideal_runtime := (∅, "default_secret").

(** * Properties *)

(** Unfolds the monad so that a handler applied to a store computes. *)
Ltac unfold_M :=
  unfold try_except_PyJWTError, jwt_decode_token, mbind, M_bind, mret, M_ret,
    raise, lift, gets, modify in *.

Section Properties.
Context `{Runtime}.

(** ** Each protected handler is the gate followed by its own work *)

Lemma get_dashboard_gate (tok : token) (st : store) :
  get_dashboard tok st =
  match auth_gate tok (users st) with
  | inl UserNotFound => (Raise (HTTPException 404 "User not found" []), st)
  | inl _ => (Raise (HTTPException 403 "Could not validate credentials" []), st)
  | inr user =>
      (Return (default default_metrics (health_metrics st !! id user)), st)
  end.
Proof.
  unfold get_dashboard, auth_gate. unfold_M.
  destruct (jwt_decode tok JWT_SECRET) as [payload|]; [|reflexivity].
  simpl. destruct (find _ (users st)); reflexivity.
Qed.

Lemma update_dashboard_gate (health_data : HealthMetrics.t) (tok : token) (st : store) :
  update_dashboard health_data tok st =
  match auth_gate tok (users st) with
  | inl UserNotFound => (Raise (HTTPException 404 "User not found" []), st)
  | inl _ => (Raise (HTTPException 403 "Could not validate credentials" []), st)
  | inr user => (Return health_data, health_metrics_set (id user) health_data st)
  end.
Proof.
  unfold update_dashboard, auth_gate. unfold_M.
  destruct (jwt_decode tok JWT_SECRET) as [payload|]; [|reflexivity].
  simpl. destruct (find _ (users st)); reflexivity.
Qed.

Lemma create_appointment_gate (a : Appointment.t) (tok : token) (now : Z) (st : store) :
  create_appointment a tok now st =
  match auth_gate tok (users st) with
  | inl UserNotFound => (Raise (HTTPException 404 "User not found" []), st)
  | inl _ => (Raise (HTTPException 403 "Could not validate credentials" []), st)
  | inr user =>
      match find (fun doc => bool_decide (doc_id doc = Appointment.doctor_id a))
                 (doctors st) with
      | None => (Raise (HTTPException 404 "Doctor not found" []), st)
      | Some doctor =>
          match datetime_le (Appointment.date a) (Naive now) with
          | Raise e => (Raise e, st)
          | Return true =>
              (Raise (HTTPException 400 "Appointment date must be in the future." []), st)
          | Return false =>
              let row :=
                {| patient_id := id user;
                   doctor_id := Appointment.doctor_id a;
                   date := Appointment.date a;
                   reason := Appointment.reason a;
                   doctor_name := name doctor;
                   appt_specialty := specialty doctor |} in
              (Return {| message := "Appointment scheduled successfully";
                         appointment := row |},
               appointments_append row st)
          end
      end
  end.
Proof.
  unfold create_appointment, auth_gate. unfold_M.
  destruct (jwt_decode tok JWT_SECRET) as [payload|]; [|reflexivity].
  simpl. destruct (find _ (users st)) as [user|]; [|reflexivity].
  destruct (find _ (doctors st)) as [doctor|]; [|reflexivity].
  destruct (Appointment.date a) as [t|t]; simpl; [|reflexivity].
  destruct (t <=? now); reflexivity.
Qed.

Lemma check_symptoms_gate (sc : SymptomCheck.t) (tok : token) (st : store) :
  check_symptoms sc tok st =
  match auth_gate tok (users st) with
  | inl UserNotFound => (Raise (HTTPException 404 "User  not found" []), st)
  | inl _ => (Raise (HTTPException 403 "Could not validate credentials" []), st)
  | inr user =>
      let matched := match_conditions (SymptomCheck.symptoms sc) in
      if bool_decide (matched = ∅)
      then (Return (NoMatch "No matching conditions found for the provided symptoms."), st)
      else (Return (Matched (elements matched)), st)
  end.
Proof.
  unfold check_symptoms, auth_gate. unfold_M.
  destruct (jwt_decode tok JWT_SECRET) as [payload|]; [|reflexivity].
  simpl. destruct (find _ (users st)) as [user|]; [|reflexivity].
  destruct (bool_decide _); reflexivity.
Qed.

(** ** The two handlers that call bcrypt *)

Lemma register_user_outcome (user : UserCreate.t) (s : salt) (st : store) :
  register_user user s st =
  match hashpw (UserCreate.password user) s with
  | Some hashed =>
      (Return {| User.id := Z.of_nat (length (users st)) + 1;
                 User.username := UserCreate.username user;
                 User.role := UserCreate.role user |},
       users_append
         {| id := Z.of_nat (length (users st)) + 1;
            username := UserCreate.username user;
            role := UserCreate.role user;
            password := hashed |} st)
  | None => (Raise ValueError, st)
  end.
Proof.
  unfold register_user, hash_password. unfold_M. simpl.
  by destruct (hashpw _ _).
Qed.

(** The outcome of a login, read off the scan of [users]. *)
Lemma login_outcome (n p : string) (st : store) :
  login_for_access_token n p st =
  (match find (fun user => bool_decide (username user = n)) (users st) with
   | None =>
       Raise (HTTPException 401 "Incorrect username or password"
                [("WWW-Authenticate", "Bearer")])
   | Some user =>
       match verify_password p (password user) with
       | Return true =>
           Return {| access_token :=
                       create_access_token {["sub" := PyStr (username user)]};
                     token_type := "bearer" |}
       | Return false =>
           Raise (HTTPException 401 "Incorrect username or password"
                    [("WWW-Authenticate", "Bearer")])
       | Raise e => Raise e
       end
   end, st).
Proof.
  unfold login_for_access_token. unfold_M. simpl.
  destruct (find _ (users st)) as [user|]; [|done].
  by destruct (verify_password _ _) as [[]|].
Qed.

(** ** Linear scans *)

Lemma find_None_iff {A} (p : A -> bool) (l : list A) :
  find p l = None <-> forall x, x ∈ l -> p x = false.
Proof.
  induction l as [|a l IH]; simpl.
  - split; [intros _ x Hx; inversion Hx | reflexivity].
  - destruct (p a) eqn:Ea.
    + split; [discriminate|]. intros Hall.
      rewrite (Hall a) in Ea by left. discriminate.
    + rewrite IH. split.
      * intros Hall x Hx. apply elem_of_cons in Hx as [->|Hx]; auto.
      * intros Hall x Hx. apply Hall. by right.
Qed.

Lemma find_Some_first {A} (p : A -> bool) (l : list A) (x : A) :
  find p l = Some x <->
  exists l1 l2, l = l1 ++ x :: l2 /\ p x = true /\ forall y, y ∈ l1 -> p y = false.
Proof.
  induction l as [|a l IH]; simpl.
  - split; [discriminate|]. intros (l1 & l2 & Hl & _). by destruct l1.
  - destruct (p a) eqn:Ea.
    + split.
      * intros [= ->]. exists [], l. repeat split; auto.
        intros y Hy. inversion Hy.
      * intros (l1 & l2 & Hl & Hx & Hl1). destruct l1 as [|b l1]; simpl in Hl.
        { by inversion Hl. }
        inversion Hl; subst b. rewrite (Hl1 a) in Ea by left. discriminate.
    + rewrite IH. split.
      * intros (l1 & l2 & -> & Hx & Hl1). exists (a :: l1), l2.
        repeat split; auto. intros y Hy.
        apply elem_of_cons in Hy as [->|Hy]; auto.
      * intros (l1 & l2 & Hl & Hx & Hl1). destruct l1 as [|b l1]; simpl in Hl.
        { inversion Hl; subst. congruence. }
        inversion Hl; subst. exists l1, l2. repeat split; auto.
        intros y Hy. apply Hl1. by right.
Qed.

(** ** What the gate answers *)

Lemma auth_gate_invalid (tok : token) (us : list user_row) :
  auth_gate tok us = inl InvalidToken <-> jwt_decode tok JWT_SECRET = None.
Proof.
  unfold auth_gate. destruct (jwt_decode tok JWT_SECRET); [|done].
  destruct (find _ us); split; discriminate.
Qed.

Lemma auth_gate_not_found (tok : token) (us : list user_row) :
  auth_gate tok us = inl UserNotFound <->
  exists claims, jwt_decode tok JWT_SECRET = Some claims /\
    forall u, u ∈ us -> PyStr (username u) <> dict_get claims "sub".
Proof.
  unfold auth_gate. destruct (jwt_decode tok JWT_SECRET) as [claims|].
  - destruct (find _ us) as [u|] eqn:Ef.
    + split; [discriminate|]. intros (c & [= <-] & Hall).
      apply find_some in Ef as [Hin Hp]. apply bool_decide_eq_true in Hp.
      destruct (Hall u); [by apply list_elem_of_In | done].
    + split; [|done]. intros _. exists claims. split; [done|].
      intros u Hu. apply (proj1 (find_None_iff _ _) Ef) in Hu.
      by apply bool_decide_eq_false in Hu.
  - split; [discriminate|]. by intros (c & ? & _).
Qed.

Lemma auth_gate_never_missing (tok : token) (us : list user_row) :
  auth_gate tok us <> inl MissingToken.
Proof.
  unfold auth_gate. destruct (jwt_decode tok JWT_SECRET); [|done].
  by destruct (find _ us).
Qed.

(** ** Properties of the specification *)

(** C2. A protected endpoint (GET /dashboard, POST /dashboard/update,
    POST /appointments, POST /symptom-checker) that receives the bearer
    token [tok]: when the token does not verify it fails with 403 and the
    detail "Could not validate credentials"; when it verifies and no row of
    [users] carries the username of its [sub] claim it fails with 404 and a
    user-not-found detail; and when the gate of the specification resolves
    the token to a user, no endpoint answers with a gate failure.  The gate
    decides alike at the four endpoints. *)
Theorem C2_auth_gate_errors (r : request) (tok : token) (st : store) :
  bearer r = Some tok ->
  (jwt_decode tok JWT_SECRET = None ->
     auth_gate tok (users st) = inl InvalidToken /\
     handle r st =
       (Raise (HTTPException 403 "Could not validate credentials" []), st))
  /\ (forall claims,
        jwt_decode tok JWT_SECRET = Some claims ->
        (forall u, u ∈ users st -> PyStr (username u) <> dict_get claims "sub") ->
        auth_gate tok (users st) = inl UserNotFound /\
        exists detail,
          handle r st = (Raise (HTTPException 404 detail []), st) /\
          (detail = "User not found" \/ detail = "User  not found"))
  /\ (forall u,
        auth_gate tok (users st) = inr u ->
        forall c d hs,
          fst (handle r st) = Raise (HTTPException c d hs) ->
          c <> 403 /\ (c = 404 -> d = "Doctor not found")).
Proof.
  intros Hr. split; [|split].
  - intros Hdec. pose proof (proj2 (auth_gate_invalid tok (users st)) Hdec) as Hg.
    split; [done|].
    destruct r; simpl in Hr; try discriminate; injection Hr as ->;
      unfold handle; unfold_M.
    + by rewrite get_dashboard_gate, Hg.
    + by rewrite update_dashboard_gate, Hg.
    + by rewrite create_appointment_gate, Hg.
    + by rewrite check_symptoms_gate, Hg.
  - intros claims Hdec Hall.
    assert (Hg : auth_gate tok (users st) = inl UserNotFound).
    { apply auth_gate_not_found. eauto. }
    split; [done|].
    destruct r; simpl in Hr; try discriminate; injection Hr as ->;
      unfold handle; unfold_M.
    + rewrite get_dashboard_gate, Hg. eauto.
    + rewrite update_dashboard_gate, Hg. eauto.
    + rewrite create_appointment_gate, Hg. eauto.
    + rewrite check_symptoms_gate, Hg. eauto.
  - intros u Hg c d hs.
    destruct r; simpl in Hr; try discriminate; injection Hr as ->;
      unfold handle; unfold_M.
    + rewrite get_dashboard_gate, Hg. discriminate.
    + rewrite update_dashboard_gate, Hg. discriminate.
    + rewrite create_appointment_gate, Hg.
      destruct (find _ (doctors st)).
      * destruct (Appointment.date _) as [t|t]; simpl; [|discriminate].
        destruct (t <=? now); simpl; [|discriminate].
        intros [= <- <- <-]. split; discriminate.
      * simpl. intros [= <- <- <-]. split; [discriminate|done].
    + rewrite check_symptoms_gate, Hg. simpl.
      destruct (bool_decide _); discriminate.
Qed.

(** C6. A request that ends in an error, at any endpoint, leaves the
    globals ([users], [health_metrics], [doctors], [appointments]) as they
    were before it. *)
Theorem C6_errors_leave_store (r : request) (st : store) (e : exn) :
  fst (handle r st) = Raise e -> snd (handle r st) = st.
Proof.
  destruct r; unfold handle; unfold_M.
  - rewrite register_user_outcome. by destruct (hashpw _ _).
  - rewrite login_outcome.
    destruct (find _ (users st)); [|done].
    by destruct (verify_password _ _) as [[]|].
  - rewrite get_dashboard_gate.
    by destruct (auth_gate tok (users st)) as [[]|].
  - rewrite update_dashboard_gate.
    destruct (auth_gate tok (users st)) as [[]|]; try done.
  - unfold read_root. unfold_M. done.
  - unfold get_doctors. unfold_M. done.
  - rewrite create_appointment_gate.
    destruct (auth_gate tok (users st)) as [[]|]; try done.
    destruct (find _ (doctors st)); [|done].
    by destruct (datetime_le _ _) as [[]|].
  - rewrite check_symptoms_gate.
    destruct (auth_gate tok (users st)) as [[]|]; try done.
    simpl. by destruct (bool_decide _).
Qed.

Lemma first_named_find (n : string) (us : list user_row) (u : user_row) :
  first_named n us u <->
  find (fun user => bool_decide (username user = n)) us = Some u.
Proof.
  rewrite find_Some_first. unfold first_named.
  split; intros (l1 & l2 & Hl & Hu & Hl1); exists l1, l2.
  - split; [done|]. split; [by apply bool_decide_eq_true|].
    intros v Hv. apply bool_decide_eq_false. auto.
  - apply bool_decide_eq_true in Hu. split; [done|]. split; [done|].
    intros v Hv. apply Hl1 in Hv. by apply bool_decide_eq_false in Hv.
Qed.

Lemma find_username_None (n : string) (us : list user_row) :
  find (fun user => bool_decide (username user = n)) us = None <->
  forall u, u ∈ us -> username u <> n.
Proof.
  rewrite find_None_iff. split; intros Hall u Hu.
  - apply Hall in Hu. by apply bool_decide_eq_false in Hu.
  - apply bool_decide_eq_false. auto.
Qed.

(** C3 (amended). POST /token fails with 401 "Incorrect username or
    password" exactly when no row of [users] has the given username, or the
    first row that has it verifies the given password to false; in every
    other case, provided the verification does not raise, it returns the
    token signed over the single claim [sub = username], with [token_type]
    "bearer", and the store is untouched. *)
Theorem C3_login_outcome (form_username form_password : string) (st : store) :
  let unauthorized : outcome token_response :=
    Raise (HTTPException 401 "Incorrect username or password"
             [("WWW-Authenticate", "Bearer")]) in
  let rejected :=
    (forall u, u ∈ users st -> username u <> form_username) \/
    (exists u, first_named form_username (users st) u /\
               verify_password form_password (password u) = Return false) in
  (fst (login_for_access_token form_username form_password st) = unauthorized
   <-> rejected)
  /\ ((forall u, first_named form_username (users st) u ->
        exists ok, verify_password form_password (password u) = Return ok) ->
      rejected \/
      login_for_access_token form_username form_password st =
        (Return {| access_token :=
                     jwt_encode {["sub" := PyStr form_username]} JWT_SECRET;
                   token_type := "bearer" |}, st)).
Proof.
  intros unauthorized rejected. subst unauthorized rejected.
  rewrite login_outcome. simpl.
  destruct (find _ (users st)) as [u|] eqn:Ef.
  - pose proof (proj2 (first_named_find _ _ _) Ef) as Hfirst.
    assert (Hsame : forall u', first_named form_username (users st) u' -> u' = u).
    { intros u' Hu'. apply first_named_find in Hu'. congruence. }
    assert (Hsome : ~ forall v, v ∈ users st -> username v <> form_username).
    { intros Hnone. apply (proj2 (find_username_None _ _)) in Hnone. congruence. }
    destruct (verify_password form_password (password u)) as [[]|e] eqn:Ev.
    + split.
      * split; [discriminate|]. intros [Hnone|(u' & Hu' & Hv)]; [done|].
        apply Hsame in Hu' as ->. congruence.
      * intros _. right. unfold create_access_token.
        destruct Hfirst as (_ & _ & _ & -> & _). reflexivity.
    + split; [|intros _; left; right; eauto].
      split; [|done]. intros _. right. eauto.
    + split.
      * split.
        -- intros [= ->]. unfold verify_password in Ev.
           destruct (checkpw _ _); discriminate.
        -- intros [Hnone|(u' & Hu' & Hv)]; [done|].
           apply Hsame in Hu' as ->. congruence.
      * intros Hret. destruct (Hret u Hfirst) as [ok Hok]. congruence.
  - pose proof (proj1 (find_username_None _ _) Ef) as Hall.
    split; [split; auto | auto].
Qed.

(** Registrations that bcrypt accepts, in sequence, number their users
    from the size of the store on. *)
Lemma register_all_ids (rs : list (UserCreate.t * salt)) (st : store) :
  Forall (fun r => is_Some (hashpw (UserCreate.password (fst r)) (snd r))) rs ->
  fst (register_all rs st) =
  imap (fun i r =>
          Return {| User.id := Z.of_nat (length (users st) + i) + 1;
                    User.username := UserCreate.username (fst r);
                    User.role := UserCreate.role (fst r) |}) rs.
Proof.
  revert st. induction rs as [|[user s] rs IH]; intros st Hall; [reflexivity|].
  apply Forall_cons in Hall as [[hashed Hh] Hrs]. simpl in Hh.
  cbn [register_all]. rewrite register_user_outcome, Hh.
  destruct (register_all rs _) as [os st''] eqn:Er. simpl.
  f_equal.
  - by rewrite Nat.add_0_r.
  - change os with (fst (os, st'')). rewrite <- Er, (IH _ Hrs). simpl.
    apply imap_ext. intros i r _. simpl.
    rewrite length_app. simpl. do 3 f_equal. lia.
Qed.

(** C4 (amended). POST /register with a password that bcrypt accepts
    succeeds on every store: it numbers the new user [len(users) + 1],
    appends the row with the hash of the password to [users] and touches
    nothing else, and answers with the id, the username and the role only.
    Served one after the other from the empty store, such registrations get
    the ids 1, 2, 3, ... *)
Theorem C4_register_appends (user : UserCreate.t) (s : salt) (st : store)
    (hashed : hash) (rs : list (UserCreate.t * salt)) :
  hashpw (UserCreate.password user) s = Some hashed ->
  Forall (fun r => is_Some (hashpw (UserCreate.password (fst r)) (snd r))) rs ->
  let new_id := Z.of_nat (length (users st)) + 1 in
  register_user user s st =
    (Return {| User.id := new_id;
               User.username := UserCreate.username user;
               User.role := UserCreate.role user |},
     {| users := users st ++
                 [ {| id := new_id;
                      username := UserCreate.username user;
                      role := UserCreate.role user;
                      password := hashed |} ];
        health_metrics := health_metrics st;
        doctors := doctors st;
        appointments := appointments st |})
  /\ fst (register_all rs init_store) =
     imap (fun i r =>
             Return {| User.id := Z.of_nat i + 1;
                       User.username := UserCreate.username (fst r);
                       User.role := UserCreate.role (fst r) |}) rs.
Proof.
  intros Hh Hrs new_id. split.
  - by rewrite register_user_outcome, Hh.
  - by apply register_all_ids.
Qed.

(** C9. Two POST /appointments requests that differ at most in the
    [patient_id] of their body get the same response and leave the same
    store; and when the request succeeds, the [patient_id] of the stored and
    echoed appointment is the id of the user the token resolves to. *)
Theorem C9_patient_id_from_token (a1 a2 : Appointment.t) (tok : token)
    (now : Z) (st : store) :
  Appointment.doctor_id a1 = Appointment.doctor_id a2 ->
  Appointment.date a1 = Appointment.date a2 ->
  Appointment.reason a1 = Appointment.reason a2 ->
  create_appointment a1 tok now st = create_appointment a2 tok now st
  /\ (forall resp st',
        create_appointment a1 tok now st = (Return resp, st') ->
        exists user,
          auth_gate tok (users st) = inr user /\
          patient_id (appointment resp) = id user /\
          appointments st' = appointments st ++ [appointment resp]).
Proof.
  intros Hd Hdate Hreason. split.
  - rewrite !create_appointment_gate, Hd, Hdate, Hreason. reflexivity.
  - intros resp st'. rewrite create_appointment_gate.
    destruct (auth_gate tok (users st)) as [[]|user]; try discriminate.
    destruct (find _ (doctors st)) as [doctor|]; [|discriminate].
    destruct (datetime_le _ _) as [[]|]; try discriminate.
    intros [= <- <-]. exists user. done.
Qed.

(** C10. A successful POST /dashboard/update writes the entry of
    [health_metrics] keyed by the id of the authenticated user and nothing
    else: the entries of all other ids, [users], [doctors] and
    [appointments] are as before. *)
Theorem C10_update_frame (health_data : HealthMetrics.t) (tok : token)
    (st st' : store) (resp : HealthMetrics.t) :
  update_dashboard health_data tok st = (Return resp, st') ->
  exists user,
    auth_gate tok (users st) = inr user /\
    health_metrics st' = <[id user := health_data]> (health_metrics st) /\
    (forall k, k <> id user -> health_metrics st' !! k = health_metrics st !! k) /\
    users st' = users st /\
    doctors st' = doctors st /\
    appointments st' = appointments st.
Proof.
  rewrite update_dashboard_gate.
  destruct (auth_gate tok (users st)) as [[]|user]; try discriminate.
  intros [= <- <-]. exists user. simpl. repeat split.
  intros k Hk. by rewrite lookup_insert_ne.
Qed.

(** No handler writes [doctors]: a running service holds the seed. *)
Lemma handle_doctors (r : request) (st : store) :
  doctors (snd (handle r st)) = doctors st.
Proof.
  destruct r; unfold handle; unfold_M.
  - rewrite register_user_outcome. by destruct (hashpw _ _).
  - rewrite login_outcome. destruct (find _ (users st)); [|done].
    by destruct (verify_password _ _) as [[]|].
  - rewrite get_dashboard_gate. by destruct (auth_gate _ _) as [[]|].
  - rewrite update_dashboard_gate. by destruct (auth_gate _ _) as [[]|].
  - reflexivity.
  - reflexivity.
  - rewrite create_appointment_gate. destruct (auth_gate _ _) as [[]|]; try done.
    destruct (find _ (doctors st)); [|done].
    by destruct (datetime_le _ _) as [[]|].
  - rewrite check_symptoms_gate. destruct (auth_gate _ _) as [[]|]; try done.
    simpl. by destruct (bool_decide _).
Qed.

Lemma run_doctors (rs : list request) :
  doctors (run rs init_store) = doctors_seed.
Proof.
  change doctors_seed with (doctors init_store).
  generalize init_store. induction rs as [|r rs IH]; intros st; [reflexivity|].
  unfold run in *. simpl. by rewrite IH, handle_doctors.
Qed.

(** C5, on naive dates. An authenticated POST /appointments on a store
    that holds the seeded doctors: if no seeded doctor has the requested
    [doctor_id] it fails with 404 "Doctor not found", whatever the date; if
    one has and the [date] is a naive datetime, then a date at or before the
    clock reading fails with 400 "Appointment date must be in the future.",
    and a date after it succeeds, appending an appointment whose
    [doctor_name] and [specialty] are those of that doctor. *)
Theorem C5_appointment_naive_date (a : Appointment.t) (tok : token)
    (now : Z) (st : store) (user : user_row) :
  auth_gate tok (users st) = inr user ->
  doctors st = doctors_seed ->
  ((forall d, d ∈ doctors_seed -> doc_id d <> Appointment.doctor_id a) ->
   create_appointment a tok now st =
     (Raise (HTTPException 404 "Doctor not found" []), st))
  /\ (forall d t, d ∈ doctors_seed -> doc_id d = Appointment.doctor_id a ->
      Appointment.date a = Naive t ->
      (t <= now ->
       create_appointment a tok now st =
         (Raise (HTTPException 400 "Appointment date must be in the future." []),
          st))
      /\ (now < t ->
          exists row,
            create_appointment a tok now st =
              (Return {| message := "Appointment scheduled successfully";
                         appointment := row |},
               appointments_append row st) /\
            doctor_name row = name d /\
            appt_specialty row = specialty d /\
            patient_id row = id user /\
            doctor_id row = Appointment.doctor_id a /\
            date row = Naive t /\
            reason row = Appointment.reason a)).
Proof.
  intros Hg Hds. rewrite create_appointment_gate, Hg, Hds. split.
  - intros Hnone.
    destruct (find _ doctors_seed) as [d|] eqn:Ef; [|done].
    apply find_some in Ef as [Hin Hd]. apply bool_decide_eq_true in Hd.
    destruct (Hnone d); [by apply list_elem_of_In | done].
  - intros d t Hin Hd Hdate.
    assert (Hfind : find (fun doc => bool_decide (doc_id doc = Appointment.doctor_id a))
                      doctors_seed = Some d).
    { rewrite <- Hd. unfold doctors_seed in *.
      repeat (apply elem_of_cons in Hin as [->|Hin]); try reflexivity.
      inversion Hin. }
    rewrite Hfind, Hdate. simpl. split; intros Ht.
    + apply Z.leb_le in Ht. by rewrite Ht.
    + apply Z.leb_gt in Ht. rewrite Ht. eexists. split; [reflexivity|]. done.
Qed.

(** ** The dashboard *)

(** Only a dashboard update that the gate resolves to the id [i] writes the
    entry [i] of [health_metrics]. *)
Lemma handle_health_metrics (r : request) (st : store) (i : Z) :
  (forall h tok u, r = POST_dashboard_update h tok ->
     auth_gate tok (users st) = inr u -> id u <> i) ->
  health_metrics (snd (handle r st)) !! i = health_metrics st !! i.
Proof.
  intros Hr. destruct r; unfold handle; unfold_M.
  - rewrite register_user_outcome. by destruct (hashpw _ _).
  - rewrite login_outcome. destruct (find _ (users st)); [|done].
    by destruct (verify_password _ _) as [[]|].
  - rewrite get_dashboard_gate. by destruct (auth_gate _ _) as [[]|].
  - rewrite update_dashboard_gate.
    destruct (auth_gate _ _) as [[]|u] eqn:Hg; try done.
    simpl. apply lookup_insert_ne. eauto.
  - reflexivity.
  - reflexivity.
  - rewrite create_appointment_gate. destruct (auth_gate _ _) as [[]|]; try done.
    destruct (find _ (doctors st)); [|done].
    by destruct (datetime_le _ _) as [[]|].
  - rewrite check_symptoms_gate. destruct (auth_gate _ _) as [[]|]; try done.
    simpl. by destruct (bool_decide _).
Qed.

Lemma run_health_metrics (rs : list request) (st : store) (i : Z) :
  no_update_by i rs st ->
  health_metrics (run rs st) !! i = health_metrics st !! i.
Proof.
  revert st. induction rs as [|r rs IH]; intros st; [reflexivity|].
  intros [Hr Hrs]. unfold run in *. simpl.
  rewrite (IH _ Hrs). by apply handle_health_metrics.
Qed.

(** C7. For a user that the gate resolves the token to: GET /dashboard
    returns the default metrics as long as [health_metrics] has no entry for
    the user, which is the case on a service that has served no dashboard
    update on behalf of this user; and after a POST /dashboard/update with
    any payload, GET /dashboard with the same token returns that payload. *)
Theorem C7_dashboard_default_and_readback (tok : token) (st : store)
    (user : user_row) :
  auth_gate tok (users st) = inr user ->
  (health_metrics st !! id user = None ->
   get_dashboard tok st = (Return default_metrics, st))
  /\ (forall rs,
        st = run rs init_store ->
        no_update_by (id user) rs init_store ->
        get_dashboard tok st = (Return default_metrics, st))
  /\ (forall health_data,
        let st' := snd (update_dashboard health_data tok st) in
        fst (update_dashboard health_data tok st) = Return health_data /\
        get_dashboard tok st' = (Return health_data, st')).
Proof.
  intros Hg.
  assert (Hdefault : health_metrics st !! id user = None ->
                     get_dashboard tok st = (Return default_metrics, st)).
  { intros Hnone. by rewrite get_dashboard_gate, Hg, Hnone. }
  split; [done|]. split.
  - intros rs -> Hno. apply Hdefault.
    by rewrite (run_health_metrics _ _ _ Hno).
  - intros health_data. rewrite update_dashboard_gate, Hg. simpl.
    split; [done|]. rewrite get_dashboard_gate. simpl. rewrite Hg.
    by rewrite lookup_insert_eq.
Qed.

(** ** The symptom checker *)

Lemma elem_of_match_conditions (symptoms : list string) (c : string) :
  c ∈ match_conditions symptoms <->
  exists symptom conds,
    symptom ∈ symptoms /\ SYMPTOM_CONDITIONS !! symptom = Some conds /\ c ∈ conds.
Proof.
  unfold match_conditions.
  assert (Hgen : forall (acc : gset string),
    c ∈ foldl (fun matched_conditions symptom =>
                 match SYMPTOM_CONDITIONS !! symptom with
                 | Some conds => matched_conditions ∪ list_to_set conds
                 | None => matched_conditions
                 end) acc symptoms <->
    c ∈ acc \/ exists symptom conds,
      symptom ∈ symptoms /\ SYMPTOM_CONDITIONS !! symptom = Some conds /\ c ∈ conds).
  { induction symptoms as [|x xs IH]; intros acc; simpl.
    - split; [auto|]. intros [?|(? & ? & Hx & _)]; [done|inversion Hx].
    - rewrite IH. destruct (SYMPTOM_CONDITIONS !! x) as [conds|] eqn:Ex.
      + rewrite elem_of_union, elem_of_list_to_set. split.
        * intros [[?|?]|(y & cs & Hy & Hl & Hc)]; [by left| |].
          { right. exists x, conds. split; [left|done]. }
          right. exists y, cs. split; [by right|done].
        * intros [?|(y & cs & Hy & Hl & Hc)]; [by left; left|].
          apply elem_of_cons in Hy as [->|Hy].
          { left. right. congruence. }
          right. eauto.
      + split.
        * intros [?|(y & cs & Hy & Hl & Hc)]; [by left|].
          right. exists y, cs. split; [by right|done].
        * intros [?|(y & cs & Hy & Hl & Hc)]; [by left|].
          apply elem_of_cons in Hy as [->|Hy]; [congruence|].
          right. eauto. }
  rewrite Hgen. split; [|by right]. intros [Hc|?]; [|done].
  by apply not_elem_of_empty in Hc.
Qed.

(** Every key of the table lists at least one condition. *)
Lemma SYMPTOM_CONDITIONS_nonempty (symptom : string) (conds : list string) :
  SYMPTOM_CONDITIONS !! symptom = Some conds -> conds <> [].
Proof.
  unfold SYMPTOM_CONDITIONS. intros Hl.
  apply elem_of_list_to_map_2 in Hl.
  repeat (apply elem_of_cons in Hl as [Hl|Hl]; [by injection Hl as -> ->|]).
  inversion Hl.
Qed.

(** C8. For an authenticated POST /symptom-checker: when no submitted
    symptom is a key of the table the answer is the no-match message; when
    one is, the answer lists, without repetition, exactly the conditions of
    the keys among the submitted symptoms.  For ["fever"; "cough"] the list
    contains "Flu" and "COVID-19"; for ["unknown_symptom"] the answer is the
    no-match message. *)
Theorem C8_symptom_union (sc : SymptomCheck.t) (tok : token) (st : store)
    (user : user_row) :
  auth_gate tok (users st) = inr user ->
  let symptoms := SymptomCheck.symptoms sc in
  let no_match : symptom_response :=
    NoMatch "No matching conditions found for the provided symptoms." in
  ((forall symptom, symptom ∈ symptoms -> SYMPTOM_CONDITIONS !! symptom = None) ->
   check_symptoms sc tok st = (Return no_match, st))
  /\ (forall symptom,
        symptom ∈ symptoms -> is_Some (SYMPTOM_CONDITIONS !! symptom) ->
        exists l,
          check_symptoms sc tok st = (Return (Matched l), st) /\
          NoDup l /\
          forall c, c ∈ l <->
            exists symptom conds,
              symptom ∈ symptoms /\
              SYMPTOM_CONDITIONS !! symptom = Some conds /\ c ∈ conds)
  /\ (symptoms = ["fever"; "cough"] ->
      exists l, check_symptoms sc tok st = (Return (Matched l), st) /\
                "Flu" ∈ l /\ "COVID-19" ∈ l)
  /\ (symptoms = ["unknown_symptom"] ->
      check_symptoms sc tok st = (Return no_match, st)).
Proof.
  intros Hg symptoms no_match. subst no_match.
  assert (Hnone : (forall symptom, symptom ∈ symptoms ->
                     SYMPTOM_CONDITIONS !! symptom = None) ->
                  check_symptoms sc tok st =
                    (Return (NoMatch "No matching conditions found for the provided symptoms."), st)).
  { intros Hall. rewrite check_symptoms_gate, Hg. simpl.
    rewrite bool_decide_eq_true_2; [done|].
    apply set_eq. intros c. rewrite elem_of_match_conditions. split.
    - intros (y & cs & Hy & Hl & _). fold symptoms in Hy.
      rewrite (Hall y Hy) in Hl. discriminate.
    - intros Hc. by apply not_elem_of_empty in Hc. }
  assert (Hsome : forall symptom,
            symptom ∈ symptoms -> is_Some (SYMPTOM_CONDITIONS !! symptom) ->
            exists l,
              check_symptoms sc tok st = (Return (Matched l), st) /\
              NoDup l /\
              forall c, c ∈ l <->
                exists symptom conds,
                  symptom ∈ symptoms /\
                  SYMPTOM_CONDITIONS !! symptom = Some conds /\ c ∈ conds).
  { intros y Hy [cs Hl]. exists (elements (match_conditions symptoms)).
    rewrite check_symptoms_gate, Hg. simpl. fold symptoms.
    rewrite bool_decide_eq_false_2.
    - split; [done|]. split; [apply NoDup_elements|].
      intros c. rewrite elem_of_elements. apply elem_of_match_conditions.
    - intros Hempty.
      destruct cs as [|c cs]; [by apply SYMPTOM_CONDITIONS_nonempty in Hl|].
      assert (Hc : c ∈ match_conditions symptoms).
      { apply elem_of_match_conditions. exists y, (c :: cs).
        split; [done|]. split; [done|left]. }
      rewrite Hempty in Hc. by apply not_elem_of_empty in Hc. }
  split; [done|]. split; [done|]. split.
  - intros Hs. destruct (Hsome "fever") as (l & Hl & _ & Hin).
    { rewrite Hs. left. }
    { by eexists. }
    exists l. split; [done|]. split; apply Hin;
      exists "fever", ["Flu"; "COVID-19"; "Infection"]; rewrite Hs;
      (split; [left|]); (split; [reflexivity|]).
    + left.
    + right. left.
  - intros Hs. apply Hnone. intros y Hy. rewrite Hs in Hy.
    apply list_elem_of_singleton in Hy as ->. reflexivity.
Qed.

(** ** Register, log in, pass the gate *)

(** C1 (amended). On a store in which no user has the username yet,
    registering a user with a password that bcrypt accepts and then logging
    in with the same username and password yields a token that the gate, as
    the protected endpoints run it, resolves to a row with that username and
    role: the row just registered. *)
Theorem C1_register_login_resolves `{!RuntimeLaws} (user : UserCreate.t)
    (s : salt) (hashed : hash) (st : store) :
  (forall u, u ∈ users st -> username u <> UserCreate.username user) ->
  hashpw (UserCreate.password user) s = Some hashed ->
  let st1 := snd (register_user user s st) in
  exists tok u,
    login_for_access_token (UserCreate.username user) (UserCreate.password user) st1
      = (Return {| access_token := tok; token_type := "bearer" |}, st1) /\
    auth_gate tok (users st1) = inr u /\
    username u = UserCreate.username user /\
    role u = UserCreate.role user /\
    fst (register_user user s st) =
      Return {| User.id := id u; User.username := username u;
                User.role := role u |} /\
    get_dashboard tok st1 =
      (Return (default default_metrics (health_metrics st1 !! id u)), st1).
Proof.
  intros Hfresh Hh st1. subst st1.
  rewrite register_user_outcome, Hh. simpl.
  set (row := {| id := Z.of_nat (length (users st)) + 1;
                 username := UserCreate.username user;
                 role := UserCreate.role user;
                 password := hashed |}).
  set (st1 := users_append row st).
  assert (Hst1 : users st1 = users st ++ [row]) by reflexivity.
  exists (jwt_encode {["sub" := PyStr (UserCreate.username user)]} JWT_SECRET), row.
  assert (Hgate : auth_gate
            (jwt_encode {["sub" := PyStr (UserCreate.username user)]} JWT_SECRET)
            (users st1) = inr row).
  { unfold auth_gate. rewrite jwt_decode_encode.
    unfold dict_get. rewrite lookup_singleton_eq. cbn [default from_option Datatypes.id].
    assert (Hf : find (fun u => bool_decide
                   (PyStr (username u) = PyStr (UserCreate.username user)))
                   (users st1) = Some row).
    { apply find_Some_first. exists (users st), []. split; [done|].
      split; [by apply bool_decide_eq_true|].
      intros v Hv. apply bool_decide_eq_false. intros [= Heq].
      by apply (Hfresh v). }
    by rewrite Hf. }
  split.
  - rewrite login_outcome.
    assert (Hf : find (fun u => bool_decide (username u = UserCreate.username user))
                   (users st1) = Some row).
    { apply first_named_find. exists (users st), []. done. }
    rewrite Hf. cbn beta iota zeta.
    unfold verify_password. cbn [password row].
    by rewrite (checkpw_hashpw _ _ _ Hh).
  - split; [done|]. split; [done|]. split; [done|]. split; [done|].
    by rewrite get_dashboard_gate, Hgate.
Qed.

End Properties.

(** * Further properties of the running service *)

Section Running.
Context `{Runtime}.

(** ** What a request does to the globals *)

(** The store after a request: untouched, or the one write of the
    handler. *)
Lemma handle_store (r : request) (st : store) :
  snd (handle r st) = st
  \/ (exists user s hashed,
        r = POST_register user s /\
        hashpw (UserCreate.password user) s = Some hashed /\
        snd (handle r st) =
          users_append
            {| id := Z.of_nat (length (users st)) + 1;
               username := UserCreate.username user;
               role := UserCreate.role user;
               password := hashed |} st)
  \/ (exists h tok u,
        r = POST_dashboard_update h tok /\
        auth_gate tok (users st) = inr u /\
        snd (handle r st) = health_metrics_set (id u) h st)
  \/ (exists a tok now u d t,
        r = POST_appointments a tok now /\
        auth_gate tok (users st) = inr u /\
        find (fun doc => bool_decide (doc_id doc = Appointment.doctor_id a))
             (doctors st) = Some d /\
        Appointment.date a = Naive t /\
        snd (handle r st) =
          appointments_append
            {| patient_id := id u;
               doctor_id := Appointment.doctor_id a;
               date := Appointment.date a;
               reason := Appointment.reason a;
               doctor_name := name d;
               appt_specialty := specialty d |} st).
Proof.
  destruct r as [user s|u p|tok|h tok| | |a tok now|sc tok];
    unfold handle; unfold_M.
  - rewrite register_user_outcome.
    destruct (hashpw _ _) as [hashed|] eqn:Hh; [|by left].
    right. left. exists user, s, hashed. done.
  - left. rewrite login_outcome. destruct (find _ (users st)); [|done].
    by destruct (verify_password _ _) as [[]|].
  - left. rewrite get_dashboard_gate. by destruct (auth_gate _ _) as [[]|].
  - rewrite update_dashboard_gate.
    destruct (auth_gate tok (users st)) as [[]|u] eqn:Hg; try (by left).
    right. right. left. exists h, tok, u. done.
  - by left.
  - by left.
  - rewrite create_appointment_gate.
    destruct (auth_gate tok (users st)) as [[]|u] eqn:Hg; try (by left).
    destruct (find _ (doctors st)) as [d|] eqn:Hd; [|by left].
    destruct (Appointment.date a) as [t|t] eqn:Ht; simpl; [|by left].
    destruct (t <=? now); [by left|].
    right. right. right. exists a, tok, now, u, d, t.
    rewrite Ht. done.
  - left. rewrite check_symptoms_gate. destruct (auth_gate _ _) as [[]|]; try done.
    simpl. by destruct (bool_decide _).
Qed.

Lemma run_cons (r : request) (rs : list request) (st : store) :
  run (r :: rs) st = run rs (snd (handle r st)).
Proof. reflexivity. Qed.

(** A request leaves [users] alone or appends one row to it. *)
Lemma handle_users (r : request) (st : store) :
  exists l, users (snd (handle r st)) = users st ++ l.
Proof.
  destruct (handle_store r st)
    as [->|[(user & s & hashed & _ & _ & ->)|[(h & tok & u & _ & _ & ->)
       |(a & tok & now & u & d & t & _ & _ & _ & _ & ->)]]]; simpl.
  - exists []. by rewrite app_nil_r.
  - eauto.
  - exists []. by rewrite app_nil_r.
  - exists []. by rewrite app_nil_r.
Qed.

Lemma run_users (rs : list request) (st : store) :
  exists l, users (run rs st) = users st ++ l.
Proof.
  revert st. induction rs as [|r rs IH]; intros st.
  - exists []. by rewrite app_nil_r.
  - rewrite run_cons. destruct (IH (snd (handle r st))) as [l2 ->].
    destruct (handle_users r st) as [l1 ->].
    exists (l1 ++ l2). by rewrite app_assoc.
Qed.

(** ** Scans of a table that grows at its end *)

Lemma find_app_Some {A} (p : A -> bool) (l1 l2 : list A) (x : A) :
  find p l1 = Some x -> find p (l1 ++ l2) = Some x.
Proof.
  induction l1 as [|a l1 IH]; simpl; [discriminate|].
  destruct (p a); auto.
Qed.

Lemma auth_gate_app (tok : token) (us l : list user_row) (u : user_row) :
  auth_gate tok us = inr u -> auth_gate tok (us ++ l) = inr u.
Proof.
  unfold auth_gate. destruct (jwt_decode tok JWT_SECRET) as [claims|]; [|discriminate].
  destruct (find _ us) as [v|] eqn:Ef; [|discriminate].
  intros [= ->]. by rewrite (find_app_Some _ _ l _ Ef).
Qed.

Lemma auth_gate_elem (tok : token) (us : list user_row) (u : user_row) :
  auth_gate tok us = inr u -> u ∈ us.
Proof.
  unfold auth_gate. destruct (jwt_decode tok JWT_SECRET) as [claims|]; [|discriminate].
  destruct (find _ us) as [v|] eqn:Ef; [|discriminate].
  intros [= ->]. apply find_some in Ef as [Hin _]. by apply list_elem_of_In.
Qed.

(** ** The invariant of a running service *)

Lemma store_ok_init : store_ok init_store.
Proof.
  unfold store_ok, init_store. simpl. split; [|split; [done|split]].
  - intros i u Hu. by destruct i.
  - intros k [x Hx]. rewrite lookup_empty in Hx. discriminate.
  - intros a Ha. inversion Ha.
Qed.

Lemma handle_store_ok (r : request) (st : store) :
  store_ok st -> store_ok (snd (handle r st)).
Proof.
  intros (Hids & Hdocs & Hkeys & Happts).
  destruct (handle_store r st)
    as [->|[(user & s & hashed & _ & _ & ->)|[(h & tok & u & _ & Hg & ->)
       |(a & tok & now & u & d & t & _ & Hg & Hd & Ht & ->)]]].
  - done.
  - split; [|split; [done|split]]; simpl.
    + intros i v Hv. apply lookup_app_Some in Hv as [Hv|[Hlen Hv]]; [eauto|].
      apply list_lookup_singleton_Some in Hv as [Hi <-]. simpl. lia.
    + intros k Hk. destruct (Hkeys k Hk) as (v & Hv & <-).
      exists v. split; [|done]. apply elem_of_app. by left.
    + intros a Ha. destruct (Happts a Ha) as ((v & Hv & Hp) & Hrest).
      split; [|done]. exists v. split; [|done]. apply elem_of_app. by left.
  - split; [done|split; [done|split]]; simpl; [|done].
    intros k Hk. destruct (decide (k = id u)) as [->|Hne].
    + exists u. split; [|done]. by apply (auth_gate_elem tok).
    + rewrite lookup_insert_ne in Hk by done. auto.
  - split; [done|split; [done|split; [done|]]]; simpl.
    intros b Hb. apply elem_of_app in Hb as [Hb|Hb]; [auto|].
    apply list_elem_of_singleton in Hb as ->. simpl. split; [|split].
    + exists u. split; [|done]. by apply (auth_gate_elem tok).
    + rewrite Hdocs in Hd. apply find_some in Hd as [Hin Hid].
      apply bool_decide_eq_true in Hid. exists d.
      split; [by apply list_elem_of_In|done].
    + eauto.
Qed.

Lemma run_store_ok (rs : list request) (st : store) :
  store_ok st -> store_ok (run rs st).
Proof.
  revert st. induction rs as [|r rs IH]; intros st Hok; [done|].
  rewrite run_cons. by apply IH, handle_store_ok.
Qed.

(** Rows whose ids count their positions have distinct ids. *)
Lemma ids_distinct (us : list user_row) (u v : user_row) :
  (forall (i : nat) w, us !! i = Some w -> id w = Z.of_nat i + 1) ->
  u ∈ us -> v ∈ us -> id u = id v -> u = v.
Proof.
  intros Hids Hu Hv Heq.
  apply list_elem_of_lookup in Hu as [i Hi].
  apply list_elem_of_lookup in Hv as [j Hj].
  pose proof (Hids i u Hi). pose proof (Hids j v Hj).
  assert (i = j) by lia. subst j. congruence.
Qed.

(** ** Users *)

(** X1. On a running service the row at position [i] of [users] has the
    id [i + 1]: ids are 1, 2, 3, ... in registration order, whatever other
    requests were served in between, and no two rows share an id. *)
Theorem user_ids_count_registrations (rs : list request) :
  (forall (i : nat) u,
     users (run rs init_store) !! i = Some u -> id u = Z.of_nat i + 1)
  /\ NoDup (id <$> users (run rs init_store)).
Proof.
  destruct (run_store_ok rs init_store store_ok_init) as (Hids & _).
  split; [exact Hids|].
  apply NoDup_alt. intros i j k Hi Hj.
  rewrite list_lookup_fmap in Hi, Hj.
  destruct (users (run rs init_store) !! i) as [u|] eqn:Eu; [|discriminate].
  destruct (users (run rs init_store) !! j) as [v|] eqn:Ev; [|discriminate].
  simpl in Hi, Hj. apply Hids in Eu, Ev.
  injection Hi as Hi. injection Hj as Hj. lia.
Qed.

(** X2. [users] is append-only: whatever requests are served, the rows
    that were there stay where they were, unchanged. *)
Theorem users_append_only (rs : list request) (st : store) :
  (exists l, users (run rs st) = users st ++ l)
  /\ (forall (i : nat) u,
        users st !! i = Some u -> users (run rs st) !! i = Some u).
Proof.
  destruct (run_users rs st) as [l Hl]. split; [eauto|].
  intros i u Hu. rewrite Hl. apply lookup_app_Some. by left.
Qed.

(** X5. The row that a [sub] claim resolves to never changes: once the
    scan of [users] finds a row for the value of the claim, it finds that
    same row after any further requests, so a later registration under the
    same username does not capture the tokens of the first. *)
Theorem sub_claim_resolution_stable (sub : pyval) (st : store) (u : user_row)
    (rs : list request) :
  find (fun user => bool_decide (PyStr (username user) = sub)) (users st)
    = Some u ->
  find (fun user => bool_decide (PyStr (username user) = sub)) (users (run rs st))
    = Some u.
Proof.
  intros Hf. destruct (run_users rs st) as [l ->]. by apply find_app_Some.
Qed.

(** X6. Once a username is in [users], the outcome of POST /token under
    that username is fixed for every password: no later request, in
    particular no second registration of the name, changes which password
    is accepted. *)
Theorem login_outcome_stable (n p : string) (st : store) (rs : list request) :
  (exists u, u ∈ users st /\ username u = n) ->
  fst (login_for_access_token n p (run rs st)) =
  fst (login_for_access_token n p st).
Proof.
  intros (u & Hu & Hn). rewrite !login_outcome. simpl.
  destruct (run_users rs st) as [l ->].
  destruct (find _ (users st)) as [v|] eqn:Ef.
  - by rewrite (find_app_Some _ _ l _ Ef).
  - pose proof (proj1 (find_username_None _ _) Ef u Hu). done.
Qed.

(** X10. When POST /token succeeds, the token it hands out resolves, now
    and after any further requests, to the first row of [users] with the
    username, and that row accepts the password. *)
Theorem login_token_resolves_first `{!RuntimeLaws} (n p : string)
    (st st' : store) (resp : token_response) (rs : list request) :
  login_for_access_token n p st = (Return resp, st') ->
  exists u,
    first_named n (users st) u /\
    verify_password p (password u) = Return true /\
    st' = st /\
    auth_gate (access_token resp) (users (run rs st)) = inr u.
Proof.
  rewrite login_outcome.
  destruct (find _ (users st)) as [u|] eqn:Ef; [|discriminate].
  destruct (verify_password p (password u)) as [[]|] eqn:Ev; try discriminate.
  intros [= <- <-]. exists u.
  pose proof (proj2 (first_named_find _ _ _) Ef) as Hfirst.
  split; [done|]. split; [done|]. split; [done|].
  destruct (run_users rs st) as [l ->]. apply auth_gate_app.
  unfold auth_gate. simpl. unfold create_access_token.
  rewrite jwt_decode_encode. unfold dict_get. rewrite lookup_singleton_eq.
  cbn [default from_option Datatypes.id].
  destruct Hfirst as (l1 & l2 & Hl & Hn & Hl1).
  assert (Hf : find (fun v => bool_decide (PyStr (username v) = PyStr (username u)))
                 (users st) = Some u).
  { apply find_Some_first. exists l1, l2. split; [done|].
    split; [by apply bool_decide_eq_true|].
    intros v Hv. apply bool_decide_eq_false. intros [= Heq].
    apply (Hl1 v Hv). congruence. }
  by rewrite Hf.
Qed.

(** X11. A protected endpoint answers a token that verifies but carries no
    string [sub] claim (the claim is missing, or not a string) with 404,
    whatever [users] holds. *)
Theorem token_without_sub_not_found (r : request) (tok : token) (st : store)
    (claims : gmap string pyval) :
  bearer r = Some tok ->
  jwt_decode tok JWT_SECRET = Some claims ->
  (forall s, dict_get claims "sub" <> PyStr s) ->
  exists detail,
    handle r st = (Raise (HTTPException 404 detail []), st).
Proof.
  intros Hr Hdec Hsub.
  assert (Hg : auth_gate tok (users st) = inl UserNotFound).
  { apply auth_gate_not_found. exists claims. split; [done|].
    intros u _ Heq. by apply (Hsub (username u)). }
  destruct r; simpl in Hr; try discriminate; injection Hr as ->;
    unfold handle; unfold_M.
  - rewrite get_dashboard_gate, Hg. eauto.
  - rewrite update_dashboard_gate, Hg. eauto.
  - rewrite create_appointment_gate, Hg. eauto.
  - rewrite check_symptoms_gate, Hg. eauto.
Qed.

(** ** Reads *)

(** X4. Requests to POST /token, GET /dashboard, GET /, GET /doctors and
    POST /symptom-checker never change a global, whether they succeed or
    fail. *)
Theorem read_only_requests_keep_store (rs : list request) (st : store) :
  Forall (fun r => read_only r = true) rs -> run rs st = st.
Proof.
  revert st. induction rs as [|r rs IH]; intros st Hall; [reflexivity|].
  apply Forall_cons in Hall as [Hr Hrs]. rewrite run_cons.
  destruct (handle_store r st)
    as [Hst|[(user & s & hashed & -> & _)|[(h & tok & u & -> & _)
       |(a & tok & now & u & d & t & -> & _)]]];
    try discriminate Hr.
  rewrite Hst. by apply IH.
Qed.

(** X3. GET /doctors on a running service always answers the three seeded
    doctors: no request adds, removes or edits a doctor. *)
Theorem get_doctors_is_seed (rs : list request) :
  handle GET_doctors (run rs init_store) =
    (Return (DoctorsBody doctors_seed), run rs init_store).
Proof.
  unfold handle, get_doctors. unfold_M. by rewrite run_doctors.
Qed.

(** ** Referential integrity *)

(** X7. Every appointment stored by a running service has the id of a
    registered user as [patient_id], names a seeded doctor by id, name and
    specialty, and has a naive date. *)
Theorem appointments_refer_to_users_and_doctors (rs : list request)
    (a : appointment_row) :
  a ∈ appointments (run rs init_store) ->
  (exists u, u ∈ users (run rs init_store) /\ id u = patient_id a)
  /\ (exists d, d ∈ doctors_seed /\ doc_id d = doctor_id a /\
                name d = doctor_name a /\ specialty d = appt_specialty a)
  /\ (exists t, date a = Naive t).
Proof.
  destruct (run_store_ok rs init_store store_ok_init) as (_ & _ & _ & Happts).
  apply Happts.
Qed.

(** X8. Every key of [health_metrics] on a running service is the id of a
    registered user. *)
Theorem health_metrics_keys_are_users (rs : list request) (k : Z) :
  is_Some (health_metrics (run rs init_store) !! k) ->
  exists u, u ∈ users (run rs init_store) /\ id u = k.
Proof.
  destruct (run_store_ok rs init_store store_ok_init) as (_ & _ & Hkeys & _).
  apply Hkeys.
Qed.

(** ** The dashboard *)

(** X12. The dashboard keeps no history: of two updates on behalf of the
    same user the second overwrites the first, and the store is as if only
    the second had been made. *)
Theorem dashboard_last_write_wins (h1 h2 : HealthMetrics.t) (tok1 tok2 : token)
    (st : store) (u : user_row) :
  auth_gate tok1 (users st) = inr u ->
  auth_gate tok2 (users st) = inr u ->
  snd (update_dashboard h2 tok2 (snd (update_dashboard h1 tok1 st))) =
  snd (update_dashboard h2 tok2 st).
Proof.
  intros Hg1 Hg2. rewrite (update_dashboard_gate h1), Hg1. simpl.
  rewrite !update_dashboard_gate. simpl. rewrite Hg2. simpl.
  unfold health_metrics_set. simpl. by rewrite insert_insert_eq.
Qed.

(** X13. On a running service, a dashboard update made for one user does
    not change what GET /dashboard answers to a token of another user. *)
Theorem dashboards_are_isolated (rs : list request) (h : HealthMetrics.t)
    (tok1 tok2 : token) (u1 u2 : user_row) :
  let st := run rs init_store in
  auth_gate tok1 (users st) = inr u1 ->
  auth_gate tok2 (users st) = inr u2 ->
  u1 <> u2 ->
  fst (get_dashboard tok2 (snd (update_dashboard h tok1 st))) =
  fst (get_dashboard tok2 st).
Proof.
  intros st Hg1 Hg2 Hne.
  destruct (run_store_ok rs init_store store_ok_init) as (Hids & _).
  fold st in Hids.
  assert (Hid : id u1 <> id u2).
  { intros Heq. apply Hne.
    apply (ids_distinct (users st)); eauto using auth_gate_elem. }
  rewrite update_dashboard_gate, Hg1. simpl.
  rewrite !get_dashboard_gate. simpl. rewrite Hg2. simpl.
  by rewrite lookup_insert_ne.
Qed.

(** ** Appointments *)

(** X14. Nothing prevents double booking: after a request succeeded, a
    request with the same body, made while its date is still ahead with a
    token that the gate then resolves to the same user, succeeds again with
    the same response, and [appointments] then holds the row twice. *)
Theorem appointment_can_be_repeated (a : Appointment.t) (tok tok' : token)
    (now now' t : Z) (st st' : store) (resp : appointment_response)
    (u : user_row) :
  create_appointment a tok now st = (Return resp, st') ->
  auth_gate tok' (users st') = inr u ->
  id u = patient_id (appointment resp) ->
  Appointment.date a = Naive t ->
  now' < t ->
  create_appointment a tok' now' st' =
    (Return resp, appointments_append (appointment resp) st')
  /\ appointments (appointments_append (appointment resp) st') =
     appointments st ++ [appointment resp; appointment resp].
Proof.
  intros Hfirst Hg' Hid Hdate Hnow. rewrite create_appointment_gate in Hfirst.
  rewrite create_appointment_gate, Hg'.
  destruct (auth_gate tok (users st)) as [[]|v] eqn:Hg; try discriminate.
  destruct (find _ (doctors st)) as [d|] eqn:Hd; [|discriminate].
  rewrite Hdate in *. simpl in *.
  destruct (t <=? now); [discriminate|].
  injection Hfirst as <- <-. simpl in *. rewrite Hd, Hid.
  apply Z.leb_gt in Hnow. rewrite Hnow. split; [reflexivity|].
  by rewrite <- app_assoc.
Qed.

(** ** The symptom checker *)

(** X9. The symptom checker looks at the submitted symptoms as a set: the
    conditions of a concatenation are the union of the conditions of its
    parts, and two requests listing the same symptoms, in any order and
    with any repetition, get the same kind of answer: the same error, the
    same no-match message, or lists of the same conditions (one a
    rearrangement of the other). *)
Theorem symptoms_are_a_set (l1 l2 : list string) (tok : token) (st : store) :
  match_conditions (l1 ++ l2) = match_conditions l1 ∪ match_conditions l2
  /\ ((forall x, x ∈ l1 <-> x ∈ l2) ->
      match fst (check_symptoms {| SymptomCheck.symptoms := l1 |} tok st),
            fst (check_symptoms {| SymptomCheck.symptoms := l2 |} tok st) with
      | Return (Matched c1), Return (Matched c2) => c1 ≡ₚ c2
      | Return (NoMatch m1), Return (NoMatch m2) => m1 = m2
      | Raise e1, Raise e2 => e1 = e2
      | _, _ => False
      end).
Proof.
  split.
  - apply set_eq. intros c.
    rewrite elem_of_union, !elem_of_match_conditions. split.
    + intros (y & cs & Hy & Hl & Hc). apply elem_of_app in Hy as [Hy|Hy];
        [left|right]; eauto.
    + intros [(y & cs & Hy & Hl & Hc)|(y & cs & Hy & Hl & Hc)];
        exists y, cs; (split; [apply elem_of_app; auto|done]).
  - intros Hsame. rewrite !check_symptoms_gate. simpl.
    assert (Heq : match_conditions l1 = match_conditions l2).
    { apply set_eq. intros c. rewrite !elem_of_match_conditions.
      split; intros (y & cs & Hy & Hl & Hc); exists y, cs;
        (split; [by apply Hsame|done]). }
    rewrite Heq.
    destruct (auth_gate tok (users st)) as [[]|u]; simpl; try reflexivity.
    destruct (bool_decide _); simpl; reflexivity.
Qed.

End Running.

(** * The properties on the reference runtime *)

#[local] Existing Instance ideal_runtime.

Lemma ideal_runtime_laws : @RuntimeLaws ideal_runtime.
Proof.
  split.
  - intros p s h. simpl. destruct (72 <? String.length p)%nat; [discriminate|].
    intros [= <-]. simpl. by rewrite bool_decide_eq_true_2.
  - intros u k. simpl. by rewrite bool_decide_eq_true_2.
Qed.

Lemma alice_store_users : users alice_store = [alice_row].
Proof. reflexivity. Qed.

Lemma alice_token_resolves :
  auth_gate (ideal_token "alice") (users alice_store) = inr alice_row.
Proof. vm_compute. reflexivity. Qed.

(** Registering bob on [alice_store], where nobody is called bob, and
    logging in as bob. *)
Lemma C1_register_login_resolves_witness :
  let st1 := snd (register_user bob_doctor "salt2" alice_store) in
  exists tok u,
    login_for_access_token "bob" "pw456" st1
      = (Return {| access_token := tok; token_type := "bearer" |}, st1) /\
    auth_gate tok (users st1) = inr u /\
    username u = "bob" /\ role u = "doctor".
Proof.
  destruct (@C1_register_login_resolves ideal_runtime ideal_runtime_laws
              bob_doctor "salt2" ("salt2", "pw456") alice_store)
    as (tok & u & Hlogin & Hg & Hn & Hr & _).
  - intros u Hu. rewrite alice_store_users in Hu.
    apply list_elem_of_singleton in Hu as ->. discriminate.
  - reflexivity.
  - exists tok, u. repeat split; assumption.
Defined.

(** C1 as stated fails when the username is already taken: a second
    "alice" registers as a doctor, logs in, and the gate resolves her token
    to the first "alice", a patient.  It also fails for a password of 73
    bytes: the registration raises [ValueError], no row is stored, and the
    login that follows is answered 401. *)
Lemma C1_counterexample_username_taken :
  let st1 := snd (register_user alice_doctor "salt2" alice_store) in
  login_for_access_token "alice" "pw123" st1
    = (Return {| access_token := ideal_token "alice"; token_type := "bearer" |}, st1)
  /\ auth_gate (ideal_token "alice") (users st1) = inr alice_row
  /\ role alice_row = "patient"
  /\ ~ (exists tok u,
          login_for_access_token "alice" "pw123" st1
            = (Return {| access_token := tok; token_type := "bearer" |}, st1) /\
          auth_gate tok (users st1) = inr u /\
          username u = "alice" /\ role u = "doctor")
  /\ register_user carol_long "salt3" alice_store = (Raise ValueError, alice_store)
  /\ fst (login_for_access_token "carol" long_password alice_store) =
       Raise (HTTPException 401 "Incorrect username or password"
                [("WWW-Authenticate", "Bearer")]).
Proof.
  intros st1.
  assert (Hlogin : login_for_access_token "alice" "pw123" st1
            = (Return {| access_token := ideal_token "alice";
                         token_type := "bearer" |}, st1)).
  { vm_compute. reflexivity. }
  assert (Hgate : auth_gate (ideal_token "alice") (users st1) = inr alice_row).
  { vm_compute. reflexivity. }
  split; [exact Hlogin|]. split; [exact Hgate|]. split; [reflexivity|].
  split; [|split; vm_compute; reflexivity].
  intros (tok & u & Hl & Hg & _ & Hrole).
  rewrite Hlogin in Hl. injection Hl as <-.
  rewrite Hgate in Hg. injection Hg as <-. discriminate.
Qed.

Lemma C3_login_outcome_witness :
  login_for_access_token "alice" "pw123" alice_store =
    (Return {| access_token := ideal_token "alice"; token_type := "bearer" |},
     alice_store).
Proof.
  destruct (proj2 (@C3_login_outcome ideal_runtime "alice" "pw123" alice_store))
    as [[Hnone|(u & Hu & Hv)]|Hlogin].
  - intros u Hu. apply first_named_find in Hu.
    injection Hu as <-. by exists true.
  - destruct (Hnone alice_row); [|reflexivity].
    rewrite alice_store_users. left.
  - apply first_named_find in Hu. injection Hu as <-. discriminate Hv.
  - exact Hlogin.
Defined.

(** C3 as stated fails for a password of 73 bytes under an existing
    username: the verification raises [ValueError], so the answer is neither
    the 401 nor a token. *)
Lemma C3_counterexample_long_password :
  let o := fst (login_for_access_token "alice" long_password alice_store) in
  o = Raise ValueError
  /\ o <> Raise (HTTPException 401 "Incorrect username or password"
                  [("WWW-Authenticate", "Bearer")])
  /\ (forall resp, o <> Return resp)
  /\ first_named "alice" (users alice_store) alice_row.
Proof.
  intros o.
  assert (Ho : o = Raise ValueError) by (vm_compute; reflexivity).
  split; [exact Ho|]. rewrite Ho.
  split; [discriminate|]. split; [discriminate|].
  by apply first_named_find.
Qed.

Lemma C4_register_appends_witness :
  register_user alice_patient "salt1" init_store =
    (Return {| User.id := 1; User.username := "alice"; User.role := "patient" |},
     alice_store)
  /\ fst (register_all [(alice_patient, "salt1"); (bob_doctor, "salt2")] init_store) =
     [ Return {| User.id := 1; User.username := "alice"; User.role := "patient" |};
       Return {| User.id := 2; User.username := "bob"; User.role := "doctor" |} ].
Proof.
  apply (@C4_register_appends ideal_runtime alice_patient "salt1" init_store
           ("salt1", "pw123") [(alice_patient, "salt1"); (bob_doctor, "salt2")]).
  - reflexivity.
  - repeat constructor; by eexists.
Defined.

(** C4 as stated fails for a password of 73 bytes: hashing raises
    [ValueError], the request does not succeed and nothing is appended. *)
Lemma C4_counterexample_long_password :
  register_user carol_long "salt3" init_store = (Raise ValueError, init_store)
  /\ (forall resp, fst (register_user carol_long "salt3" init_store) <> Return resp)
  /\ String.length (UserCreate.password carol_long) = 73%nat.
Proof.
  assert (Hr : register_user carol_long "salt3" init_store
               = (Raise ValueError, init_store)) by (vm_compute; reflexivity).
  split; [exact Hr|]. rewrite Hr. split; [discriminate|]. reflexivity.
Qed.

Lemma C2_auth_gate_errors_witness :
  bearer (GET_dashboard (forged_token "alice")) = Some (forged_token "alice")
  /\ handle (GET_dashboard (forged_token "alice")) alice_store =
       (Raise (HTTPException 403 "Could not validate credentials" []), alice_store).
Proof.
  split; [reflexivity|].
  destruct (@C2_auth_gate_errors ideal_runtime
              (GET_dashboard (forged_token "alice")) (forged_token "alice")
              alice_store eq_refl) as [H403 _].
  apply H403. reflexivity.
Defined.

Lemma C5_appointment_naive_date_witness :
  exists row,
    create_appointment (sample_appointment (Naive 2000)) (ideal_token "alice")
      1000 alice_store =
      (Return {| message := "Appointment scheduled successfully";
                 appointment := row |},
       appointments_append row alice_store) /\
    doctor_name row = "Dr. Alice Smith" /\
    appt_specialty row = "Cardiology".
Proof.
  destruct (@C5_appointment_naive_date ideal_runtime
              (sample_appointment (Naive 2000)) (ideal_token "alice")
              1000 alice_store alice_row
              alice_token_resolves eq_refl) as [_ Hfound].
  destruct (Hfound {| doc_id := 1; name := "Dr. Alice Smith";
                      specialty := "Cardiology" |} 2000) as [_ Hfuture].
  - left.
  - reflexivity.
  - reflexivity.
  - destruct Hfuture as (row & Hrow & Hname & Hspec & _); [reflexivity|].
    exists row. repeat split; assumption.
Defined.

(** C5 at a date that carries a UTC offset.  The registered user alice,
    with her token, asks for doctor 1 at an aware date: whether the date
    lies after or before the clock reading, comparing it with the naive
    [datetime.now()] raises [TypeError], which is neither the 400 nor a
    stored appointment. *)
Lemma C5_counterexample_aware_date :
  let future := create_appointment (sample_appointment (Aware 2000))
                  (ideal_token "alice") 1000 alice_store in
  let past := create_appointment (sample_appointment (Aware 500))
                (ideal_token "alice") 1000 alice_store in
  future = (Raise (TypeError "can't compare offset-naive and offset-aware datetimes"),
            alice_store)
  /\ past = (Raise (TypeError "can't compare offset-naive and offset-aware datetimes"),
            alice_store)
  /\ (forall resp, fst future <> Return resp)
  /\ (forall detail hs, fst past <> Raise (HTTPException 400 detail hs)).
Proof.
  intros future past.
  assert (Hf : future = (Raise (TypeError "can't compare offset-naive and offset-aware datetimes"),
                         alice_store)).
  { subst future. rewrite create_appointment_gate, alice_token_resolves. reflexivity. }
  assert (Hp : past = (Raise (TypeError "can't compare offset-naive and offset-aware datetimes"),
                       alice_store)).
  { subst past. rewrite create_appointment_gate, alice_token_resolves. reflexivity. }
  split; [exact Hf|]. split; [exact Hp|]. split.
  - intros resp. rewrite Hf. discriminate.
  - intros detail hs. rewrite Hp. discriminate.
Qed.

Lemma C6_errors_leave_store_witness :
  fst (handle (GET_dashboard (forged_token "alice")) alice_store) =
    Raise (HTTPException 403 "Could not validate credentials" [])
  /\ snd (handle (GET_dashboard (forged_token "alice")) alice_store) = alice_store.
Proof.
  assert (Herr : fst (handle (GET_dashboard (forged_token "alice")) alice_store) =
                 Raise (HTTPException 403 "Could not validate credentials" [])).
  { vm_compute. reflexivity. }
  split; [exact Herr|].
  exact (@C6_errors_leave_store ideal_runtime _ _ _ Herr).
Defined.

Lemma C7_dashboard_default_and_readback_witness :
  get_dashboard (ideal_token "alice") alice_store = (Return default_metrics, alice_store)
  /\ (alice_store = run [POST_register alice_patient "salt1"] init_store /\
      no_update_by 1 [POST_register alice_patient "salt1"] init_store)
  /\ get_dashboard (ideal_token "alice")
       (snd (update_dashboard sample_metrics (ideal_token "alice") alice_store))
     = (Return sample_metrics,
        snd (update_dashboard sample_metrics (ideal_token "alice") alice_store)).
Proof.
  destruct (@C7_dashboard_default_and_readback ideal_runtime
              (ideal_token "alice") alice_store alice_row alice_token_resolves)
    as (Hdefault & Hfresh & Hread).
  assert (Hrun : alice_store = run [POST_register alice_patient "salt1"] init_store)
    by reflexivity.
  assert (Hno : no_update_by 1 [POST_register alice_patient "salt1"] init_store).
  { split; [|exact I]. intros h tok u Hr. discriminate Hr. }
  split; [|split].
  - exact (Hfresh _ Hrun Hno).
  - split; assumption.
  - apply (Hread sample_metrics).
Defined.

Lemma C8_symptom_union_witness :
  exists l,
    check_symptoms {| SymptomCheck.symptoms := ["fever"; "cough"] |}
      (ideal_token "alice") alice_store = (Return (Matched l), alice_store) /\
    "Flu" ∈ l /\ "COVID-19" ∈ l.
Proof.
  destruct (@C8_symptom_union ideal_runtime
              {| SymptomCheck.symptoms := ["fever"; "cough"] |}
              (ideal_token "alice") alice_store alice_row alice_token_resolves)
    as (_ & _ & Hfc & _).
  apply Hfc. reflexivity.
Defined.

Lemma C9_patient_id_from_token_witness :
  create_appointment (sample_appointment (Naive 2000)) (ideal_token "alice")
    1000 alice_store =
  create_appointment (with_patient_id 7 (sample_appointment (Naive 2000)))
    (ideal_token "alice") 1000 alice_store.
Proof.
  exact (proj1 (@C9_patient_id_from_token ideal_runtime
                  (sample_appointment (Naive 2000))
                  (with_patient_id 7 (sample_appointment (Naive 2000)))
                  (ideal_token "alice") 1000 alice_store
                  eq_refl eq_refl eq_refl)).
Defined.

Lemma C10_update_frame_witness :
  exists user,
    auth_gate (ideal_token "alice") (users alice_store) = inr user /\
    users (health_metrics_set 1 sample_metrics alice_store) = users alice_store.
Proof.
  destruct (@C10_update_frame ideal_runtime sample_metrics (ideal_token "alice")
              alice_store (health_metrics_set 1 sample_metrics alice_store)
              sample_metrics)
    as (user & Hg & _ & _ & Hu & _).
  - rewrite update_dashboard_gate, alice_token_resolves. reflexivity.
  - exists user. split; assumption.
Defined.

(** ** The further properties on the reference runtime *)

Lemma user_ids_count_registrations_witness : id bob_row = 2.
Proof.
  apply (proj1 (@user_ids_count_registrations ideal_runtime two_users) 1%nat bob_row).
  reflexivity.
Defined.

Lemma users_append_only_witness :
  users (run alice_again alice_store) !! 0%nat
  = Some alice_row.
Proof.
  apply (proj2 (@users_append_only ideal_runtime
                  alice_again alice_store) 0%nat alice_row).
  reflexivity.
Defined.

Lemma read_only_requests_keep_store_witness : run reads alice_store = alice_store.
Proof.
  apply (@read_only_requests_keep_store ideal_runtime reads alice_store).
  repeat constructor.
Defined.

Lemma sub_claim_resolution_stable_witness :
  find (fun user => bool_decide (PyStr (username user) = PyStr "alice"))
    (users (run alice_again alice_store)) = Some alice_row.
Proof.
  apply (@sub_claim_resolution_stable ideal_runtime (PyStr "alice") alice_store
           alice_row alice_again).
  reflexivity.
Defined.

Lemma login_outcome_stable_witness :
  fst (login_for_access_token "alice" "pw123"
         (run alice_again alice_store)) =
  fst (login_for_access_token "alice" "pw123" alice_store).
Proof.
  apply (@login_outcome_stable ideal_runtime "alice" "pw123" alice_store
           alice_again).
  exists alice_row. split; [|reflexivity].
  rewrite alice_store_users. left.
Defined.

Lemma busy_day_appointments : appointments (run busy_day init_store) = [bob_booking].
Proof. vm_compute. reflexivity. Qed.

Lemma appointments_refer_to_users_and_doctors_witness :
  (exists u, u ∈ users (run busy_day init_store) /\ id u = 2)
  /\ (exists d, d ∈ doctors_seed /\ doc_id d = 1 /\
                name d = "Dr. Alice Smith" /\ specialty d = "Cardiology")
  /\ (exists t, Naive 2000 = Naive t).
Proof.
  apply (@appointments_refer_to_users_and_doctors ideal_runtime busy_day bob_booking).
  rewrite busy_day_appointments. left.
Defined.

Lemma busy_day_metrics :
  health_metrics (run busy_day init_store) !! 1 = Some sample_metrics.
Proof. vm_compute. reflexivity. Qed.

Lemma health_metrics_keys_are_users_witness :
  exists u, u ∈ users (run busy_day init_store) /\ id u = 1.
Proof.
  apply (@health_metrics_keys_are_users ideal_runtime busy_day 1).
  rewrite busy_day_metrics. by eexists.
Defined.

Lemma symptoms_are_a_set_witness :
  match fst (check_symptoms {| SymptomCheck.symptoms := ["fever"; "cough"] |}
               (ideal_token "alice") alice_store),
        fst (check_symptoms {| SymptomCheck.symptoms := ["cough"; "fever"; "fever"] |}
               (ideal_token "alice") alice_store) with
  | Return (Matched c1), Return (Matched c2) => c1 ≡ₚ c2
  | Return (NoMatch m1), Return (NoMatch m2) => m1 = m2
  | Raise e1, Raise e2 => e1 = e2
  | _, _ => False
  end.
Proof.
  apply (proj2 (@symptoms_are_a_set ideal_runtime ["fever"; "cough"]
                  ["cough"; "fever"; "fever"] (ideal_token "alice") alice_store)).
  intros x. rewrite !elem_of_cons. rewrite !elem_of_nil. tauto.
Defined.

Lemma login_token_resolves_first_witness :
  exists u,
    first_named "alice" (users alice_store) u /\
    auth_gate (ideal_token "alice")
      (users (run alice_again alice_store)) = inr u.
Proof.
  destruct (@login_token_resolves_first ideal_runtime ideal_runtime_laws
              "alice" "pw123" alice_store alice_store
              {| access_token := ideal_token "alice"; token_type := "bearer" |}
              alice_again)
    as (u & Hfirst & _ & _ & Hg).
  - vm_compute. reflexivity.
  - exists u. split; assumption.
Defined.

Lemma token_without_sub_not_found_witness :
  exists detail,
    handle (GET_dashboard claimless_token) alice_store =
      (Raise (HTTPException 404 detail []), alice_store).
Proof.
  apply (@token_without_sub_not_found ideal_runtime
           (GET_dashboard claimless_token) claimless_token alice_store ∅).
  - reflexivity.
  - reflexivity.
  - intros s. unfold dict_get. rewrite lookup_empty. discriminate.
Defined.

Lemma dashboard_last_write_wins_witness :
  snd (update_dashboard sample_metrics (ideal_token "alice")
         (snd (update_dashboard default_metrics (ideal_token "alice") alice_store))) =
  snd (update_dashboard sample_metrics (ideal_token "alice") alice_store).
Proof.
  exact (@dashboard_last_write_wins ideal_runtime default_metrics sample_metrics
           (ideal_token "alice") (ideal_token "alice") alice_store alice_row
           alice_token_resolves alice_token_resolves).
Defined.

Lemma two_users_alice :
  auth_gate (ideal_token "alice") (users (run two_users init_store)) = inr alice_row.
Proof. vm_compute. reflexivity. Qed.

Lemma two_users_bob :
  auth_gate (ideal_token "bob") (users (run two_users init_store)) = inr bob_row.
Proof. vm_compute. reflexivity. Qed.

Lemma dashboards_are_isolated_witness :
  fst (get_dashboard (ideal_token "bob")
         (snd (update_dashboard sample_metrics (ideal_token "alice")
                 (run two_users init_store)))) =
  fst (get_dashboard (ideal_token "bob") (run two_users init_store)).
Proof.
  apply (@dashboards_are_isolated ideal_runtime two_users sample_metrics
           (ideal_token "alice") (ideal_token "bob") alice_row bob_row
           two_users_alice two_users_bob).
  intros Heq. apply (f_equal id) in Heq. discriminate Heq.
Defined.

Lemma alice_books :
  create_appointment (sample_appointment (Naive 2000)) (ideal_token "alice")
    1000 alice_store =
  (Return {| message := "Appointment scheduled successfully";
             appointment :=
               {| patient_id := 1; doctor_id := 1; date := Naive 2000;
                  reason := Some "checkup"; doctor_name := "Dr. Alice Smith";
                  appt_specialty := "Cardiology" |} |},
   appointments_append
     {| patient_id := 1; doctor_id := 1; date := Naive 2000;
        reason := Some "checkup"; doctor_name := "Dr. Alice Smith";
        appt_specialty := "Cardiology" |} alice_store).
Proof. rewrite create_appointment_gate, alice_token_resolves. reflexivity. Qed.

Lemma alice_still_resolves :
  auth_gate (ideal_token "alice")
    (users (appointments_append
              {| patient_id := 1; doctor_id := 1; date := Naive 2000;
                 reason := Some "checkup"; doctor_name := "Dr. Alice Smith";
                 appt_specialty := "Cardiology" |} alice_store)) = inr alice_row.
Proof. exact alice_token_resolves. Qed.

Lemma appointment_can_be_repeated_witness :
  exists resp st',
    create_appointment (sample_appointment (Naive 2000)) (ideal_token "alice")
      1500 st' = (Return resp, appointments_append (appointment resp) st') /\
    appointments (appointments_append (appointment resp) st') =
      [appointment resp; appointment resp].
Proof.
  eexists _, _.
  apply (@appointment_can_be_repeated ideal_runtime
           (sample_appointment (Naive 2000)) (ideal_token "alice")
           (ideal_token "alice") 1000 1500 2000 alice_store _ _ alice_row alice_books).
  - exact alice_still_resolves.
  - reflexivity.
  - reflexivity.
  - reflexivity.
Defined.
